(** * Weather pipeline: ingestion and yearly statistics

    A shallow embedding of [app/models.py], [app/ingestion.py] and
    [app/analysis.py], of [parse_date] of [app/api.py] and of
    [find_free_port] of [run.py], with the properties of the pipeline
    proved on it.

    Conventions of the embedding.
    - Python [str] is a Rocq [string]; a character is a code point below 256.
    - Python [int] is [Z]; Python [float] is the kernel's binary64 [float].
    - An exception is a value of [exn]; a method that mutates [self.stats]
      or the database session is a function from the state to a result and
      the state it leaves, so that the state survives a raised exception.
    - The library functions the code calls ([str.strip], [str.split], [int],
      [datetime.strptime], the SQLAlchemy session) are modelled by the
      functions of the modules [Py] and [Session] below. *)

From Stdlib Require Import ZArith List String Ascii Bool Lia PrimFloat SpecFloat FloatOps
  Permutation.
Import ListNotations.
Local Open Scope Z_scope.

(** ** Python built-ins used by the parser *)

Module Py.

Definition ord (c : ascii) : Z := Z.of_N (N_of_ascii c).

Definition between (lo hi : Z) (c : ascii) : bool :=
  (lo <=? ord c) && (ord c <=? hi).

(** [str.isspace] on one character, restricted to code points below 256:
    TAB..CR, FS..US, SPACE, NEL and NBSP. *)
Definition isspace (c : ascii) : bool :=
  between 9 13 c || between 28 32 c || (ord c =? 133) || (ord c =? 160).

(** A decimal digit as [int] and the regular expression class [\d] see it:
    below code point 256 these are the ASCII digits only. *)
Definition isdigit (c : ascii) : bool := between 48 57 c.

Definition digit (c : ascii) : Z := ord c - 48.

Fixpoint lstrip (s : string) : string :=
  match s with
  | EmptyString => EmptyString
  | String c s' => if isspace c then lstrip s' else s
  end.

Fixpoint rstrip (s : string) : string :=
  match s with
  | EmptyString => EmptyString
  | String c s' =>
      match rstrip s' with
      | EmptyString => if isspace c then EmptyString else String c EmptyString
      | r => String c r
      end
  end.

(** [s.strip()] *)
Definition strip (s : string) : string := rstrip (lstrip s).

(** [s.split(sep)] for a one-character separator: never an empty list. *)
Fixpoint split (sep : ascii) (s : string) : list string :=
  match s with
  | EmptyString => [EmptyString]
  | String c s' =>
      if Ascii.eqb c sep then EmptyString :: split sep s'
      else match split sep s' with
           | f :: fs => String c f :: fs
           | [] => [String c EmptyString]
           end
  end.

(** The digits of an integer literal: decimal digits, with single
    underscores allowed between two digits. [after_digit] tells whether the
    previous character was a digit. *)
Fixpoint int_digits (acc : Z) (after_digit : bool) (s : string) : option Z :=
  match s with
  | EmptyString => if after_digit then Some acc else None
  | String c s' =>
      if isdigit c then int_digits (10 * acc + digit c) true s'
      else if (ord c =? 95) && after_digit then int_digits acc false s'
      else None
  end.

(** [int(s)] in base ten: surrounding whitespace is dropped, one sign is
    allowed, and [None] stands for the [ValueError] it raises. The parser
    only hands it text whose two ends [strip] trimmed already, and
    [strptime] text its pattern matched, so that the trimming done here
    drops a plain space at most. CPython's configurable cap on the number
    of digits is taken as switched off. *)
Definition int (s : string) : option Z :=
  match strip s with
  | EmptyString => None
  | String c rest =>
      if ord c =? 45 then option_map Z.opp (int_digits 0 false rest)
      else if ord c =? 43 then int_digits 0 false rest
      else int_digits 0 false (String c rest)
  end.

(** [datetime.date]: a proleptic Gregorian calendar day. *)
Record date : Type := Date { year : Z; month : Z; day : Z }.

Definition is_leap (y : Z) : bool :=
  ((y mod 4 =? 0) && negb (y mod 100 =? 0)) || (y mod 400 =? 0).

Definition days_in_month (y m : Z) : Z :=
  if m =? 2 then (if is_leap y then 29 else 28)
  else if (m =? 4) || (m =? 6) || (m =? 9) || (m =? 11) then 30
  else 31.

(** The constructor [date(y, m, d)]; [None] is its [ValueError]. *)
Definition make_date (y m d : Z) : option date :=
  if (1 <=? y) && (y <=? 9999) && (1 <=? m) && (m <=? 12)
     && (1 <=? d) && (d <=? days_in_month y m)
  then Some (Date y m d) else None.

(** One alternative of a regular expression group: the text it captures
    and the text left, or [None] when it does not match at this place. *)
Definition re_alt : Type := string -> option (string * string).

Definition one (p : ascii -> bool) : re_alt := fun s =>
  match s with
  | String a r => if p a then Some (String a EmptyString, r) else None
  | _ => None
  end.

Definition two (p q : ascii -> bool) : re_alt := fun s =>
  match s with
  | String a (String b r) =>
      if p a && q b then Some (String a (String b EmptyString), r) else None
  | _ => None
  end.

Definition is_char (n : Z) (c : ascii) : bool := ord c =? n.

(** [(?P<Y>\d\d\d\d)] *)
Definition re_Y : re_alt := fun s =>
  match s with
  | String a (String b (String c (String d r))) =>
      if isdigit a && isdigit b && isdigit c && isdigit d
      then Some (String a (String b (String c (String d EmptyString))), r)
      else None
  | _ => None
  end.

(** [(?P<m>1[0-2]|0[1-9]|[1-9])] *)
Definition re_m : list re_alt :=
  [ two (is_char 49) (between 48 50);
    two (is_char 48) (between 49 57);
    one (between 49 57) ].

(** [(?P<d>3[0-1]|[1-2]\d|0[1-9]|[1-9]| [1-9])] *)
Definition re_d : list re_alt :=
  [ two (is_char 51) (between 48 49);
    two (between 49 50) isdigit;
    two (is_char 48) (between 49 57);
    one (between 49 57);
    two (is_char 32) (between 49 57) ].

(** A group of alternatives followed by the rest of the pattern [k]: the
    alternatives are tried in order, and the next one is tried when the
    rest of the pattern fails after this one (backtracking). *)
Fixpoint group {A : Type} (alts : list re_alt) (s : string)
    (k : string -> string -> option A) : option A :=
  match alts with
  | [] => None
  | alt :: alts' =>
      match alt s with
      | Some (captured, rest) =>
          match k captured rest with
          | Some r => Some r
          | None => group alts' s k
          end
      | None => group alts' s k
      end
  end.

(** [format_regex.match(data_string)] for the format [%Y%m%d]: the three
    captures and the unconverted text after the match. *)
Definition match_Ymd (s : string) : option (string * string * string * string) :=
  match re_Y s with
  | None => None
  | Some (y, s1) =>
      group re_m s1 (fun m s2 =>
      group re_d s2 (fun d s3 => Some (y, m, d, s3)))
  end.

(** [datetime.strptime(s, '%Y%m%d').date()]; [None] is the [ValueError]
    raised when the text does not match, when text remains after the
    match, or when the numbers are not a day of the calendar. *)
Definition strptime_Ymd (s : string) : option date :=
  match match_Ymd s with
  | Some (y, m, d, EmptyString) =>
      match int y, int m, int d with
      | Some y', Some m', Some d' => make_date y' m' d'
      | _, _, _ => None
      end
  | _ => None
  end.

End Py.

(** ** Exceptions

    [OtherStorageError] stands for every exception the storage layer raises
    that is no [IntegrityError] (a [DataError], an [OperationalError], an
    [OverflowError] of the driver). *)

Inductive exn : Type :=
| FileNotFoundError
| OSError
| ValueError
| IntegrityError
| OtherStorageError.

(** ** [app/models.py] *)

Module WeatherData.

(** A row of [weather_data] or an object not yet persisted. The surrogate
    key [id] is assigned by the storage and read by no operation of the
    pipeline; it is left out. [created_at] is [None] until the row is
    inserted. The three measurements are integers always: the parser sets
    each of them, so that no row holds a NULL. *)
Record t : Type := Make {
  station_id : string;
  date : Py.date;
  max_temp : Z;
  min_temp : Z;
  precipitation : Z;
  created_at : option nat
}.

End WeatherData.

Module WeatherStats.

(** A row of [weather_stats] (the surrogate key [id] is left out, as for
    [WeatherData]). The two timestamps are [None] on an object that was
    not inserted yet. *)
Record t : Type := Make {
  station_id : string;
  year : Z;
  avg_max_temp : option float;
  avg_min_temp : option float;
  total_precipitation : option float;
  created_at : option nat;
  updated_at : option nat
}.

End WeatherStats.

(** ** State and exceptions *)

Inductive result (A : Type) : Type :=
| Ok (a : A)
| Raise (e : exn).
Arguments Ok {A} a.
Arguments Raise {A} e.

(** A computation over a state [S]: its outcome and the state it leaves,
    which is kept when an exception is raised. *)
Definition M (S A : Type) : Type := S -> result A * S.

Definition ret {S A : Type} (a : A) : M S A := fun s => (Ok a, s).

Definition raise {S A : Type} (e : exn) : M S A := fun s => (Raise e, s).

Definition bind {S A B : Type} (m : M S A) (k : A -> M S B) : M S B :=
  fun s => match m s with
           | (Ok a, s') => k a s'
           | (Raise e, s') => (Raise e, s')
           end.

(** [try: body  except ...: handler]; a handler that does not catch its
    exception raises it again. *)
Definition try_except {S A : Type} (body : M S A) (handler : exn -> M S A) : M S A :=
  fun s => match body s with
           | (Ok a, s') => (Ok a, s')
           | (Raise e, s') => handler e s'
           end.

Definition modify {S : Type} (f : S -> S) : M S unit := fun s => (Ok tt, f s).

Declare Scope py_scope.
Delimit Scope py_scope with py.
Notation "x <- m ;; k" := (bind m (fun x => k))
  (at level 61, m at next level, right associativity) : py_scope.
Notation "m ;; k" := (bind m (fun _ => k))
  (at level 61, right associativity) : py_scope.

(** ** The storage behind [db.session] *)

Module Session.

(** The committed rows of both tables in insertion order, a logical clock
    read by [datetime.utcnow], and the storage layer's own refusals:
    [refuses r] tells that inserting [r] fails for a reason that is not a
    constraint violation (a value the column cannot hold, for one), which
    reaches the caller as an exception that is no [IntegrityError]. A
    statement that fails commits nothing. *)
Record t : Type := Make {
  weather_data : list WeatherData.t;
  weather_stats : list WeatherStats.t;
  clock : nat;
  refuses : WeatherData.t -> bool
}.

Definition date_eqb (a b : Py.date) : bool :=
  (Py.year a =? Py.year b) && (Py.month a =? Py.month b) && (Py.day a =? Py.day b).

(** The columns of [uq_station_date] agree. *)
Definition same_station_date (a b : WeatherData.t) : bool :=
  String.eqb (WeatherData.station_id a) (WeatherData.station_id b)
  && date_eqb (WeatherData.date a) (WeatherData.date b).

Definition stamp (now : nat) (r : WeatherData.t) : WeatherData.t :=
  WeatherData.Make (WeatherData.station_id r) (WeatherData.date r)
    (WeatherData.max_temp r) (WeatherData.min_temp r)
    (WeatherData.precipitation r) (Some now).

(** One [INSERT INTO weather_data] inside the open transaction. A value
    the storage cannot take is refused when the statement is bound, before
    any constraint is looked at; the row gets its [created_at] default. *)
Definition insert (s : t) (r : WeatherData.t) : exn + t :=
  if refuses s r then inl OtherStorageError
  else if existsb (same_station_date r) (weather_data s) then inl IntegrityError
  else inr (Make (weather_data s ++ [stamp (clock s) r]) (weather_stats s)
              (S (clock s)) (refuses s)).

(** The rows of one transaction, inserted in order; the first failure
    ends it. *)
Fixpoint insert_all (s : t) (rs : list WeatherData.t) : exn + t :=
  match rs with
  | [] => inr s
  | r :: rs' =>
      match insert s r with
      | inl e => inl e
      | inr s' => insert_all s' rs'
      end
  end.

End Session.

(** ** [app/ingestion.py] *)

Module WeatherDataIngester.

(** [self.stats] *)
Record Stats : Type := MakeStats {
  files_processed : nat;
  records_ingested : nat;
  records_skipped : nat;
  errors : nat
}.

(** [self], the session it writes to, and a ghost trace [flushed] of the
    batches handed to [_process_batch], oldest first. No operation reads
    the trace. *)
Record t : Type := Make {
  batch_size : Z;
  stats : Stats;
  session : Session.t;
  flushed : list (list WeatherData.t)
}.

(** [WeatherDataIngester(batch_size)] over a session. *)
Definition __init__ (batch_size : Z) (db : Session.t) : t :=
  Make batch_size (MakeStats 0 0 0 0) db [].

End WeatherDataIngester.

Module Ing := WeatherDataIngester.

Definition TAB : ascii := ascii_of_nat 9.

(** [WeatherDataIngester._parse_line] *)
Definition _parse_line (line station_id : string) : exn + WeatherData.t :=
  let parts := Py.split TAB line in
  if negb (Nat.eqb (List.length parts) 4) then inl ValueError
  else
    let date_str := Py.strip (nth 0 parts EmptyString) in
    match Py.int (Py.strip (nth 1 parts EmptyString)) with
    | None => inl ValueError
    | Some max_temp =>
    match Py.int (Py.strip (nth 2 parts EmptyString)) with
    | None => inl ValueError
    | Some min_temp =>
    match Py.int (Py.strip (nth 3 parts EmptyString)) with
    | None => inl ValueError
    | Some precipitation =>
    match Py.strptime_Ymd date_str with
    | None => inl ValueError
    | Some date_obj =>
        inr (WeatherData.Make station_id date_obj max_temp min_temp
               precipitation None)
    end end end end.

Definition set_stats (f : Ing.Stats -> Ing.Stats) (w : Ing.t) : Ing.t :=
  Ing.Make (Ing.batch_size w) (f (Ing.stats w)) (Ing.session w) (Ing.flushed w).

Definition set_session (db : Session.t) (w : Ing.t) : Ing.t :=
  Ing.Make (Ing.batch_size w) (Ing.stats w) db (Ing.flushed w).

(** The four counters of [self.stats], each raised by [n]. *)
Definition with_files_processed (n : nat) : Ing.t -> Ing.t :=
  set_stats (fun st => Ing.MakeStats (Ing.files_processed st + n)
    (Ing.records_ingested st) (Ing.records_skipped st) (Ing.errors st)).

Definition with_records_ingested (n : nat) : Ing.t -> Ing.t :=
  set_stats (fun st => Ing.MakeStats (Ing.files_processed st)
    (Ing.records_ingested st + n) (Ing.records_skipped st) (Ing.errors st)).

Definition with_records_skipped (n : nat) : Ing.t -> Ing.t :=
  set_stats (fun st => Ing.MakeStats (Ing.files_processed st)
    (Ing.records_ingested st) (Ing.records_skipped st + n) (Ing.errors st)).

Definition with_errors (n : nat) : Ing.t -> Ing.t :=
  set_stats (fun st => Ing.MakeStats (Ing.files_processed st)
    (Ing.records_ingested st) (Ing.records_skipped st) (Ing.errors st + n)).

(** The ghost trace extended by the batches [bs]. *)
Definition with_flushed (bs : list (list WeatherData.t)) (w : Ing.t) : Ing.t :=
  Ing.Make (Ing.batch_size w) (Ing.stats w) (Ing.session w) (Ing.flushed w ++ bs).

(** [self.stats['files_processed'] += n] and its like. *)
Definition add_files_processed (n : nat) : M Ing.t unit :=
  modify (with_files_processed n).

Definition add_records_ingested (n : nat) : M Ing.t unit :=
  modify (with_records_ingested n).

Definition add_records_skipped (n : nat) : M Ing.t unit :=
  modify (with_records_skipped n).

Definition add_errors (n : nat) : M Ing.t unit :=
  modify (with_errors n).

Definition trace_flush (batch : list WeatherData.t) : M Ing.t unit :=
  modify (with_flushed [batch]).

(** [db.session.bulk_save_objects(batch); db.session.commit()] *)
Definition bulk_save_and_commit (batch : list WeatherData.t) : M Ing.t unit :=
  fun w => match Session.insert_all (Ing.session w) batch with
           | inr db => (Ok tt, set_session db w)
           | inl e => (Raise e, w)
           end.

(** [db.session.add(record); db.session.commit()] *)
Definition add_and_commit (record : WeatherData.t) : M Ing.t unit :=
  fun w => match Session.insert (Ing.session w) record with
           | inr db => (Ok tt, set_session db w)
           | inl e => (Raise e, w)
           end.

(** [db.session.rollback()]: the failed transaction left nothing behind. *)
Definition rollback : M Ing.t unit := ret tt.

Local Open Scope py_scope.

(** [WeatherDataIngester._process_individually] *)
Fixpoint _process_individually (batch : list WeatherData.t) : M Ing.t unit :=
  match batch with
  | [] => ret tt
  | record :: rest =>
      try_except
        (add_and_commit record ;; add_records_ingested 1)
        (fun e => match e with
                  | IntegrityError => rollback ;; add_records_skipped 1
                  | _ => raise e
                  end) ;;
      _process_individually rest
  end.

(** [WeatherDataIngester._process_batch] *)
Definition _process_batch (batch : list WeatherData.t) : M Ing.t unit :=
  trace_flush batch ;;
  try_except
    (bulk_save_and_commit batch ;; add_records_ingested (List.length batch))
    (fun e => match e with
              | IntegrityError => rollback ;; _process_individually batch
              | _ => raise e
              end).

(** The body of [for line in file] in [_ingest_file], with the local
    variable [batch] as an argument; the value is the batch left at the end
    of the file. The test [if record:] holds for every object the parser
    returns, and [line_count] only feeds a log message: both are left out.
    When [_process_batch] raises, [batch = []] is not reached, and the
    handler of the loop counts the error. *)
Fixpoint ingest_lines (station_id : string) (lines : list string)
    (batch : list WeatherData.t) : M Ing.t (list WeatherData.t) :=
  match lines with
  | [] => ret batch
  | raw :: rest =>
      let line := Py.strip raw in
      match line with
      | EmptyString => ingest_lines station_id rest batch
      | _ =>
          match _parse_line line station_id with
          | inl _ => add_errors 1 ;; ingest_lines station_id rest batch
          | inr record =>
              let batch := (batch ++ [record])%list in
              fun w =>
                if Z.of_nat (List.length batch) >=? Ing.batch_size w then
                  match _process_batch batch w with
                  | (Ok _, w') => ingest_lines station_id rest [] w'
                  | (Raise _, w') =>
                      (add_errors 1 ;; ingest_lines station_id rest batch) w'
                  end
                else ingest_lines station_id rest batch w
          end
      end
  end.

(** What [open(file_path, 'r')] finds: a file that cannot be opened or
    read, or its lines. *)
Inductive contents : Type :=
| Unreadable
| Lines (lines : list string).

(** An entry of the directory matching [*.txt]: [file_path.stem] and the
    file behind it. *)
Record path : Type := Path { stem : string; file : contents }.

(** A directory path leads to nothing, or to its [*.txt] entries in the
    order [glob] yields them. *)
Definition file_system : Type := string -> option (list path).

(** [WeatherDataIngester._ingest_file] *)
Definition _ingest_file (file_path : path) (station_id : string) : M Ing.t unit :=
  match file file_path with
  | Unreadable => raise OSError
  | Lines lines =>
      batch <- ingest_lines station_id lines [] ;;
      match batch with
      | [] => ret tt
      | _ => _process_batch batch
      end
  end.

(** The loop [for file_path in weather_files] of [ingest_from_directory]. *)
Fixpoint ingest_files (weather_files : list path) : M Ing.t unit :=
  match weather_files with
  | [] => ret tt
  | file_path :: rest =>
      try_except
        (_ingest_file file_path (stem file_path) ;; add_files_processed 1)
        (fun _ => add_errors 1) ;;
      ingest_files rest
  end.

(** [WeatherDataIngester.ingest_from_directory] *)
Definition ingest_from_directory (fs : file_system) (data_directory : string)
    : M Ing.t Ing.Stats :=
  match fs data_directory with
  | None => raise FileNotFoundError
  | Some weather_files =>
      ingest_files weather_files ;;
      fun w => (Ok (Ing.stats w), w)
  end.

(** [run_ingestion]: a fresh ingester with the default batch size. *)
Definition run_ingestion (fs : file_system) (data_directory : string)
    (db : Session.t) : result Ing.Stats * Ing.t :=
  ingest_from_directory fs data_directory (Ing.__init__ 1000 db).

(** ** [app/analysis.py] *)

Module WeatherStatsCalculator.

(** [self.stats] *)
Record Stats : Type := MakeStats {
  stations_processed : nat;
  years_processed : nat;
  stats_calculated : nat;
  errors : nat
}.

(** [self] and the session it reads and writes. *)
Record t : Type := Make {
  stats : Stats;
  session : Session.t
}.

Definition __init__ (db : Session.t) : t := Make (MakeStats 0 0 0 0) db.

End WeatherStatsCalculator.

Module Calc := WeatherStatsCalculator.

(** The conversion of a Python [int] to [float]: the nearest binary64. *)
Definition float_of_int (z : Z) : float :=
  SF2Prim (binary_normalize prec emax z 0 false).

(** [sum(...)] over integers. *)
Definition sum (xs : list Z) : Z := fold_left Z.add xs 0.

(** [a / b] on two integers, as the quotient of their conversions (which
    is CPython's correctly rounded quotient while both are below 2^53 in
    absolute value). *)
Definition true_div (a b : Z) : float := (float_of_int a / float_of_int b)%float.

(** The value that marks a missing measurement. *)
Definition MISSING : Z := -9999.

(** The base query of [_calculate_station_year_stats]: the rows of one
    station whose date lies in [year]. *)
Definition station_year_query (db : Session.t) (station_id : string) (year : Z)
    : list WeatherData.t :=
  filter (fun r => String.eqb (WeatherData.station_id r) station_id
                   && (Py.year (WeatherData.date r) =? year))
         (Session.weather_data db).

(** [query.filter(column != -9999).with_entities(column).all()] *)
Definition column_without_missing (column : WeatherData.t -> Z)
    (query : list WeatherData.t) : list Z :=
  map column (filter (fun r => negb (column r =? MISSING)) query).

Definition stats_key (station_id : string) (year : Z) (row : WeatherStats.t) : bool :=
  String.eqb (WeatherStats.station_id row) station_id
  && (WeatherStats.year row =? year).

(** [WeatherStats.query.filter_by(station_id=..., year=...).first()] *)
Definition first_stat (db : Session.t) (station_id : string) (year : Z)
    : option WeatherStats.t :=
  find (stats_key station_id year) (Session.weather_stats db).

(** The assignments to [existing_stat], with [now] from [datetime.utcnow()]. *)
Definition overwrite (avg_max_temp avg_min_temp total_precipitation : option float)
    (now : nat) (row : WeatherStats.t) : WeatherStats.t :=
  WeatherStats.Make (WeatherStats.station_id row) (WeatherStats.year row)
    avg_max_temp avg_min_temp total_precipitation
    (WeatherStats.created_at row) (Some now).

(** The change of the first row that satisfies [p], where the session
    holds the object [first()] returned. *)
Fixpoint update_first (p : WeatherStats.t -> bool)
    (f : WeatherStats.t -> WeatherStats.t) (rows : list WeatherStats.t)
    : list WeatherStats.t :=
  match rows with
  | [] => []
  | row :: rows' => if p row then f row :: rows' else row :: update_first p f rows'
  end.

(** The commit of changed attributes of the object found by [first()]. *)
Definition commit_update (station_id : string) (year : Z)
    (a b c : option float) : M Calc.t unit :=
  fun w =>
    let db := Calc.session w in
    let now := Session.clock db in
    (Ok tt,
     Calc.Make (Calc.stats w)
       (Session.Make (Session.weather_data db)
          (update_first (stats_key station_id year) (overwrite a b c now)
             (Session.weather_stats db))
          (S now) (Session.refuses db))).

(** [db.session.add(new_stat); db.session.commit()]: the insert is refused
    when [uq_station_year] already holds the key; the two timestamp
    defaults each read the clock. *)
Definition commit_new (station_id : string) (year : Z)
    (a b c : option float) : M Calc.t unit :=
  fun w =>
    let db := Calc.session w in
    let now := Session.clock db in
    if existsb (stats_key station_id year) (Session.weather_stats db)
    then (Raise IntegrityError, w)
    else
      (Ok tt,
       Calc.Make (Calc.stats w)
         (Session.Make (Session.weather_data db)
            (Session.weather_stats db
               ++ [WeatherStats.Make station_id year a b c (Some now) (Some (S now))])
            (S (S now)) (Session.refuses db))).

(** [WeatherStatsCalculator._calculate_station_year_stats]. The commit is
    taken to fail on the uniqueness constraint only. *)
Definition _calculate_station_year_stats (station_id : string) (year : Z)
    : M Calc.t unit :=
  fun w =>
    let db := Calc.session w in
    let query := station_year_query db station_id year in
    let max_temps := column_without_missing WeatherData.max_temp query in
    let avg_max_temp :=
      match max_temps with
      | [] => None
      | _ => Some (true_div (sum max_temps) (Z.of_nat (List.length max_temps)) / 10)%float
      end in
    let min_temps := column_without_missing WeatherData.min_temp query in
    let avg_min_temp :=
      match min_temps with
      | [] => None
      | _ => Some (true_div (sum min_temps) (Z.of_nat (List.length min_temps)) / 10)%float
      end in
    let precipitations := column_without_missing WeatherData.precipitation query in
    let total_precipitation :=
      match precipitations with
      | [] => None
      | _ => Some (float_of_int (sum precipitations) / 100)%float
      end in
    match first_stat db station_id year with
    | Some _ =>
        commit_update station_id year avg_max_temp avg_min_temp total_precipitation w
    | None =>
        commit_new station_id year avg_max_temp avg_min_temp total_precipitation w
    end.

Definition station_year_eq_dec (a b : string * Z) : {a = b} + {a <> b}.
Proof. decide equality; [apply Z.eq_dec | apply string_dec]. Defined.

(** [db.session.query(station_id, extract('year', date)).distinct().all()] *)
Definition distinct_station_years (db : Session.t) : list (string * Z) :=
  nodup station_year_eq_dec
    (map (fun r => (WeatherData.station_id r, Py.year (WeatherData.date r)))
         (Session.weather_data db)).

Definition add_stats_calculated (n : nat) : M Calc.t unit :=
  modify (fun w => Calc.Make
    (Calc.MakeStats (Calc.stations_processed (Calc.stats w))
       (Calc.years_processed (Calc.stats w))
       (Calc.stats_calculated (Calc.stats w) + n)
       (Calc.errors (Calc.stats w)))
    (Calc.session w)).

Definition add_calc_errors (n : nat) : M Calc.t unit :=
  modify (fun w => Calc.Make
    (Calc.MakeStats (Calc.stations_processed (Calc.stats w))
       (Calc.years_processed (Calc.stats w))
       (Calc.stats_calculated (Calc.stats w))
       (Calc.errors (Calc.stats w) + n))
    (Calc.session w)).

Definition set_processed (stations years : nat) : M Calc.t unit :=
  modify (fun w => Calc.Make
    (Calc.MakeStats stations years
       (Calc.stats_calculated (Calc.stats w))
       (Calc.errors (Calc.stats w)))
    (Calc.session w)).

(** The loop over the (station, year) pairs shared by [calculate_all_stats]
    and [calculate_station_stats]. *)
Fixpoint calculate_each (station_years : list (string * Z)) : M Calc.t unit :=
  match station_years with
  | [] => ret tt
  | (station_id, year) :: rest =>
      try_except
        (_calculate_station_year_stats station_id year ;; add_stats_calculated 1)
        (fun _ => add_calc_errors 1) ;;
      calculate_each rest
  end.

(** [WeatherStatsCalculator.calculate_all_stats] *)
Definition calculate_all_stats : M Calc.t Calc.Stats :=
  fun w =>
    let station_years := distinct_station_years (Calc.session w) in
    (calculate_each station_years ;;
     set_processed
       (List.length (nodup string_dec (map fst station_years)))
       (List.length (nodup Z.eq_dec (map snd station_years))) ;;
     fun w' => (Ok (Calc.stats w'), w')) w.


(** [run_stats_calculation] *)
Definition run_stats_calculation (db : Session.t) : result Calc.Stats * Calc.t :=
  calculate_all_stats (Calc.__init__ db).

(** ** [app/models.py]: the derived properties of a daily record

    The division of an integer by a [float] converts the integer first. *)




(** ** [app/api.py]: the dates of a query *)







(** ** [run.py]: the port of the server *)






(** * Notions of the specification *)

(** ** Text of a line *)

Fixpoint string_forall (p : ascii -> bool) (s : string) : bool :=
  match s with
  | EmptyString => true
  | String c s' => p c && string_forall p s'
  end.

Definition all_digits (s : string) : bool := string_forall Py.isdigit s.

(** The number a run of decimal digits denotes, after the digits [acc]. *)
Fixpoint decimal (acc : Z) (s : string) : Z :=
  match s with
  | EmptyString => acc
  | String c s' => decimal (10 * acc + Py.digit c) s'
  end.

(** The pattern YYYYMMDD read as text: eight decimal digits. *)
Definition matches_YYYYMMDD (s : string) : bool :=
  Nat.eqb (String.length s) 8 && all_digits s.

Definition YYYY (s : string) : Z := decimal 0 (substring 0 4 s).
Definition MM (s : string) : Z := decimal 0 (substring 4 2 s).
Definition DD (s : string) : Z := decimal 0 (substring 6 2 s).

(** A day of the calendar, from year 1 on. *)
Definition calendar_day (y m d : Z) : bool :=
  (1 <=? y) && (1 <=? m) && (m <=? 12) && (1 <=? d) && (d <=? Py.days_in_month y m).

(** A valid YYYYMMDD date: eight digits that name a day of the calendar. *)
Definition valid_date_text (s : string) : bool :=
  matches_YYYYMMDD s && calendar_day (YYYY s) (MM s) (DD s).

Definition date_value (s : string) : Py.date := Py.Date (YYYY s) (MM s) (DD s).

Definition nonempty (s : string) : bool :=
  match s with EmptyString => false | _ => true end.

(** A valid integer as a line spells it: an optional sign and one or more
    decimal digits. *)
Definition integer_text (s : string) : bool :=
  match s with
  | EmptyString => false
  | String c r =>
      if (Py.ord c =? 45) || (Py.ord c =? 43)
      then nonempty r && all_digits r
      else all_digits s
  end.

Definition integer_value (s : string) : Z :=
  match s with
  | EmptyString => 0
  | String c r =>
      if Py.ord c =? 45 then - decimal 0 r
      else if Py.ord c =? 43 then decimal 0 r
      else decimal 0 s
  end.

(** Four fields joined by tabs. *)
Definition tab_joined (f0 f1 f2 f3 : string) : string :=
  (f0 ++ String TAB (f1 ++ String TAB (f2 ++ String TAB f3)))%string.

(** The integer literals [int] reads, as a grammar: a digit, then digits
    each optionally preceded by one underscore. *)
Inductive digit_run : string -> Prop :=
| run_digit c : Py.isdigit c = true -> digit_run (String c EmptyString)
| run_more c s : Py.isdigit c = true -> digit_run s -> digit_run (String c s)
| run_underscore c s :
    Py.isdigit c = true -> digit_run s ->
    digit_run (String c (String (ascii_of_nat 95) s)).

Inductive int_literal : string -> Prop :=
| literal_plain s : digit_run s -> int_literal s
| literal_minus s : digit_run s -> int_literal (String (ascii_of_nat 45) s)
| literal_plus s : digit_run s -> int_literal (String (ascii_of_nat 43) s).

(** The failure condition of the parser as the specification words it:
    not four fields, or a date field that is not eight digits, or a
    numeric field that is not an integer. *)
Definition stated_failure_condition (line : string) : bool :=
  let parts := Py.split TAB line in
  negb (Nat.eqb (List.length parts) 4)
  || negb (matches_YYYYMMDD (nth 0 parts EmptyString))
  || negb (integer_text (nth 1 parts EmptyString))
  || negb (integer_text (nth 2 parts EmptyString))
  || negb (integer_text (nth 3 parts EmptyString)).

Definition not_tab (c : ascii) : bool := negb (Ascii.eqb c TAB).

Definition is_sign_or_digit (c : ascii) : bool :=
  (Py.ord c =? 45) || (Py.ord c =? 43) || Py.isdigit c.

(** A match of the date pattern that is no full match: none at all, or
    one that leaves text unconverted. *)
Definition unfinished (r : option (string * string * string * string)) : Prop :=
  r = None \/ exists y m d c rest, r = Some (y, m, d, String c rest).

(** The two-character alternatives of the day and month groups. *)
Definition day_two (g h : ascii) : bool :=
  (Py.is_char 51 g && Py.between 48 49 h)
  || (Py.between 49 50 g && Py.isdigit h)
  || (Py.is_char 48 g && Py.between 49 57 h).

Definition month_two (e f : ascii) : bool :=
  (Py.is_char 49 e && Py.between 48 50 f)
  || (Py.is_char 48 e && Py.between 49 57 f).

(** ** Records and rows *)

(** The (station, date) pair of [r] is already among [rows]. *)
Definition known (rows : list WeatherData.t) (r : WeatherData.t) : bool :=
  existsb (Session.same_station_date r) rows.

(** The uniqueness invariant of [weather_data]: no two rows share their
    (station, date) pair. *)
Fixpoint unique_station_date (rows : list WeatherData.t) : Prop :=
  match rows with
  | [] => True
  | r :: rest => known rest r = false /\ unique_station_date rest
  end.

(** The number of rows holding the (station, date) pair of [r]. *)
Definition rows_with_key (r : WeatherData.t) (rows : list WeatherData.t) : nat :=
  List.length (filter (Session.same_station_date r) rows).

(** The records of [rs], in order, that are the first to bring their
    (station, date) pair: neither among [rows] nor earlier in [rs]. *)
Fixpoint newcomers (rows rs : list WeatherData.t) : list WeatherData.t :=
  match rs with
  | [] => []
  | r :: rs' =>
      if known rows r then newcomers rows rs'
      else r :: newcomers (rows ++ [r]) rs'
  end.

(** The rows that inserting [rs] one after the other creates, the first
    at time [now]. *)
Fixpoint stamp_from (now : nat) (rs : list WeatherData.t) : list WeatherData.t :=
  match rs with
  | [] => []
  | r :: rs' => Session.stamp now r :: stamp_from (S now) rs'
  end.

(** The storage after the newcomers of [rs] were inserted. *)
Definition accept (rs : list WeatherData.t) (db : Session.t) : Session.t :=
  let new := newcomers (Session.weather_data db) rs in
  Session.Make (Session.weather_data db ++ stamp_from (Session.clock db) new)
    (Session.weather_stats db)
    (Session.clock db + List.length new)
    (Session.refuses db).

(** The records before the first one the storage refuses. *)
Fixpoint until_refused (refuses : WeatherData.t -> bool) (rs : list WeatherData.t)
    : list WeatherData.t :=
  match rs with
  | [] => []
  | r :: rs' => if refuses r then [] else r :: until_refused refuses rs'
  end.

(** The ingester after the records [done] were classified one by one:
    newcomers ingested, the others skipped. *)
Definition classified (done : list WeatherData.t) (w : Ing.t) : Ing.t :=
  let new := newcomers (Session.weather_data (Ing.session w)) done in
  Ing.Make (Ing.batch_size w)
    (Ing.MakeStats (Ing.files_processed (Ing.stats w))
       (Ing.records_ingested (Ing.stats w) + List.length new)
       (Ing.records_skipped (Ing.stats w) + (List.length done - List.length new))
       (Ing.errors (Ing.stats w)))
    (accept done (Ing.session w))
    (Ing.flushed w).

(** ** Lines and batches *)

(** The records the lines of a file parse to, in order. *)
Fixpoint parsed_records (station_id : string) (lines : list string)
    : list WeatherData.t :=
  match lines with
  | [] => []
  | raw :: rest =>
      match Py.strip raw with
      | EmptyString => parsed_records station_id rest
      | line =>
          match _parse_line line station_id with
          | inr record => record :: parsed_records station_id rest
          | inl _ => parsed_records station_id rest
          end
      end
  end.

(** The number of non-blank lines that do not parse. *)
Fixpoint parse_failures (station_id : string) (lines : list string) : nat :=
  match lines with
  | [] => 0
  | raw :: rest =>
      match Py.strip raw with
      | EmptyString => parse_failures station_id rest
      | line =>
          match _parse_line line station_id with
          | inr _ => parse_failures station_id rest
          | inl _ => S (parse_failures station_id rest)
          end
      end
  end.

(** The batches that fill up while [records] are appended to [batch], and
    the batch left at the end. *)
Fixpoint batches (size : Z) (batch records : list WeatherData.t)
    : list (list WeatherData.t) * list WeatherData.t :=
  match records with
  | [] => ([], batch)
  | r :: rs =>
      let batch := (batch ++ [r])%list in
      if Z.of_nat (List.length batch) >=? size
      then let (full, left) := batches size [] rs in (batch :: full, left)
      else batches size batch rs
  end.

(** The batches a file flushes: the full ones, then the rest if any. *)
Definition flushes (size : Z) (records : list WeatherData.t)
    : list (list WeatherData.t) :=
  let (full, left) := batches size [] records in
  match left with
  | [] => full
  | _ => (full ++ [left])%list
  end.

(** No record of [rs] is refused by the storage. *)
Definition none_refused (db : Session.t) (rs : list WeatherData.t) : Prop :=
  forall r, In r rs -> Session.refuses db r = false.

(** ** A storage for the examples *)

Definition fits_int64 (z : Z) : bool := (- 2 ^ 63 <=? z) && (z <? 2 ^ 63).

(** The refusals of SQLite, the default storage: an integer that does not
    fit 64 bits cannot be bound to a statement. *)
Definition sqlite_refuses (r : WeatherData.t) : bool :=
  negb (fits_int64 (WeatherData.max_temp r)
        && fits_int64 (WeatherData.min_temp r)
        && fits_int64 (WeatherData.precipitation r)).

Definition empty_db : Session.t := Session.Make [] [] 0 sqlite_refuses.

Definition day_record (station_id : string) (y m d max_temp min_temp precipitation : Z)
    : WeatherData.t :=
  WeatherData.Make station_id (Py.Date y m d) max_temp min_temp precipitation None.

(** ** The files of a directory *)

Definition file_records (f : path) : list WeatherData.t :=
  match file f with
  | Lines lines => parsed_records (stem f) lines
  | Unreadable => []
  end.

(** The errors one file adds: its lines that do not parse, or one for a
    file that cannot be read. *)
Definition file_errors (f : path) : nat :=
  match file f with
  | Lines lines => parse_failures (stem f) lines
  | Unreadable => 1
  end.

Definition file_readable (f : path) : bool :=
  match file f with
  | Lines _ => true
  | Unreadable => false
  end.

Definition directory_records (files : list path) : list WeatherData.t :=
  flat_map file_records files.

Definition directory_errors (files : list path) : nat :=
  list_sum (map file_errors files).

Definition directory_flushes (size : Z) (files : list path)
    : list (list WeatherData.t) :=
  flat_map (fun f => flushes size (file_records f)) files.

(** The ingester after a run over [files] in which the storage refused
    nothing. *)
Definition after_run (files : list path) (w : Ing.t) : Ing.t :=
  with_files_processed (List.length (filter file_readable files))
    (with_errors (directory_errors files)
       (with_flushed (directory_flushes (Ing.batch_size w) files)
          (classified (directory_records files) w))).

(** ** What every ingestion step respects *)

(** From [w] to [w']: the rows that were there are still there, each as
    it was and in its place, before the rows that were added; if no two
    rows shared their (station, date) pair, none do now; the summary
    table, the behaviour of the storage and the batch size are the same. *)
Definition grows (w w' : Ing.t) : Prop :=
  (exists added,
     Session.weather_data (Ing.session w')
     = (Session.weather_data (Ing.session w) ++ added)%list)
  /\ (unique_station_date (Session.weather_data (Ing.session w)) ->
      unique_station_date (Session.weather_data (Ing.session w')))
  /\ Session.weather_stats (Ing.session w') = Session.weather_stats (Ing.session w)
  /\ Session.refuses (Ing.session w') = Session.refuses (Ing.session w)
  /\ Ing.batch_size w' = Ing.batch_size w.

(** A computation that respects [grows] from every state, whatever its
    outcome. *)
Definition growing {A : Type} (m : M Ing.t A) : Prop :=
  forall w, grows w (snd (m w)).

(** ** Runs one after the other *)

(** Ingestion runs against one storage, each with a fresh ingester of its
    own batch size, over its own file system and directory. *)
Fixpoint ingestion_runs (runs : list (Z * file_system * string)) (db : Session.t)
    : Session.t :=
  match runs with
  | [] => db
  | (batch_size, fs, data_directory) :: rest =>
      ingestion_runs rest
        (Ing.session
           (snd (ingest_from_directory fs data_directory (Ing.__init__ batch_size db))))
  end.

(** ** Files and rows for the examples *)

Definition three_days : list string :=
  [ tab_joined "20230101" "100" "-50" "25";
    tab_joined "20230102" "150" "0" "0";
    tab_joined "20230103" "-9999" "-100" "50" ]%string.

(** A station file with a blank line, a line that does not parse and a
    repeated day, and a second station file that cannot be read. *)
Definition example_files : list path :=
  [ Path "USC00110072"
      (Lines [ tab_joined "20230101" "100" "-50" "25";
               EmptyString;
               "junk";
               tab_joined "20230102" "150" "0" "0";
               tab_joined "20230103" "-9999" "-100" "50";
               tab_joined "20230101" "1" "1" "1" ]%string);
    Path "USC00110187" Unreadable ].

Definition example_fs : file_system := fun data_directory =>
  if String.eqb data_directory "wx_data" then Some example_files else None.

(** A storage that holds 1 January 2023 of station S1 already. *)
Definition one_day_db : Session.t :=
  Session.Make [Session.stamp 0 (day_record "S1" 2023 1 1 100 (-50) 25)] [] 1
    sqlite_refuses.

(** The same day again, then a day whose temperature no 64-bit integer
    holds, then a new day. *)
Definition mixed_batch : list WeatherData.t :=
  [ day_record "S1" 2023 1 1 1 1 1;
    day_record "S1" 2023 1 2 (10 ^ 20) 0 0;
    day_record "S1" 2023 1 3 5 5 5 ].

(** Three days of one station, the second with a temperature that no
    64-bit integer holds. *)
Definition refused_second_day : list string :=
  [ tab_joined "20230101" "100" "-50" "25";
    tab_joined "20230102" "100000000000000000000" "0" "0";
    tab_joined "20230103" "-9999" "-100" "50" ]%string.

(** ** Yearly summaries *)

(** The values of a column that are not the missing-data mark. *)
Definition present (values : list Z) : list Z :=
  filter (fun v => negb (v =? MISSING)) values.

(** The mean of the present values, in tenths, as degrees; nothing when
    every value is missing. *)
Definition mean_of_tenths (values : list Z) : option float :=
  match present values with
  | [] => None
  | vs => Some (true_div (sum vs) (Z.of_nat (List.length vs)) / 10)%float
  end.

(** The sum of the present values, in hundredths, as centimetres; nothing
    when every value is missing. *)
Definition total_of_hundredths (values : list Z) : option float :=
  match present values with
  | [] => None
  | vs => Some (float_of_int (sum vs) / 100)%float
  end.

(** The storage after the summary of one (station, year) group was
    written: the first row of the group overwritten, or a row appended. *)
Definition upserted (station_id : string) (year : Z) (db : Session.t) : Session.t :=
  let group := station_year_query db station_id year in
  let a := mean_of_tenths (map WeatherData.max_temp group) in
  let b := mean_of_tenths (map WeatherData.min_temp group) in
  let c := total_of_hundredths (map WeatherData.precipitation group) in
  let now := Session.clock db in
  match first_stat db station_id year with
  | Some _ =>
      Session.Make (Session.weather_data db)
        (update_first (stats_key station_id year) (overwrite a b c now)
           (Session.weather_stats db))
        (S now) (Session.refuses db)
  | None =>
      Session.Make (Session.weather_data db)
        (Session.weather_stats db
           ++ [WeatherStats.Make station_id year a b c (Some now) (Some (S now))])
        (S (S now)) (Session.refuses db)
  end.

(** The first summary row of the group carries the values its daily
    records give. *)
Definition summarised (db : Session.t) (key : string * Z) : Prop :=
  exists row,
    first_stat db (fst key) (snd key) = Some row
    /\ WeatherStats.avg_max_temp row
       = mean_of_tenths (map WeatherData.max_temp
                           (station_year_query db (fst key) (snd key)))
    /\ WeatherStats.avg_min_temp row
       = mean_of_tenths (map WeatherData.min_temp
                           (station_year_query db (fst key) (snd key)))
    /\ WeatherStats.total_precipitation row
       = total_of_hundredths (map WeatherData.precipitation
                                (station_year_query db (fst key) (snd key))).

(** A summary row without its last-updated timestamp. *)
Definition without_updated_at (row : WeatherStats.t) : WeatherStats.t :=
  WeatherStats.Make (WeatherStats.station_id row) (WeatherStats.year row)
    (WeatherStats.avg_max_temp row) (WeatherStats.avg_min_temp row)
    (WeatherStats.total_precipitation row) (WeatherStats.created_at row) None.

(** The uniqueness invariant of [weather_stats]: no two rows share their
    (station, year) pair. *)
Fixpoint unique_station_year (rows : list WeatherStats.t) : Prop :=
  match rows with
  | [] => True
  | row :: rest =>
      existsb (stats_key (WeatherStats.station_id row) (WeatherStats.year row)) rest
      = false
      /\ unique_station_year rest
  end.

(** The sample of the test suite: three days of one station in 2023, the
    third without a maximum temperature. *)
Definition sample_db : Session.t :=
  Session.Make
    (stamp_from 0
       [ day_record "USC00110072" 2023 1 1 100 (-50) 25;
         day_record "USC00110072" 2023 1 2 150 0 0;
         day_record "USC00110072" 2023 1 3 (-9999) (-100) 50 ])
    [] 3 sqlite_refuses.

(** A station whose only day of 1999 has no measurement at all. *)
Definition blank_year_db : Session.t :=
  Session.Make
    (stamp_from 0 [ day_record "USC00110072" 1999 7 4 (-9999) (-9999) (-9999) ])
    [] 1 sqlite_refuses.

(** The storage after the summaries of the groups [keys] were written,
    one after the other. *)
Definition upserted_all (keys : list (string * Z)) (db : Session.t) : Session.t :=
  fold_left (fun db key => upserted (fst key) (snd key) db) keys db.

(** ** The text of a record *)

Definition digit_char (n : Z) : ascii := ascii_of_N (Z.to_N (48 + n)).

(** The decimal digits of [n], most significant first, before [rest];
    [fuel] bounds the number of digits. *)
Fixpoint decimal_text (fuel : nat) (n : Z) (rest : string) : string :=
  match fuel with
  | O => rest
  | S fuel' =>
      let rest := String (digit_char (n mod 10)) rest in
      if n <? 10 then rest else decimal_text fuel' (n / 10) rest
  end.

Definition natural_text (n : Z) : string :=
  decimal_text (S (Z.to_nat (Z.log2 n))) n EmptyString.

(** An integer as [str] writes it. *)
Definition text_of_integer (z : Z) : string :=
  if z <? 0 then String (ascii_of_nat 45) (natural_text (- z)) else natural_text z.

(** A date as [strftime('%Y%m%d')] writes it. *)
Definition text_of_date (d : Py.date) : string :=
  let y := Py.year d in
  let m := Py.month d in
  let dd := Py.day d in
  String (digit_char (y / 1000)) (String (digit_char (y / 100 mod 10))
  (String (digit_char (y / 10 mod 10)) (String (digit_char (y mod 10))
  (String (digit_char (m / 10)) (String (digit_char (m mod 10))
  (String (digit_char (dd / 10)) (String (digit_char (dd mod 10)) EmptyString))))))).

(** The line that spells a record: its date and its three integers,
    joined by tabs. *)
Definition line_of (r : WeatherData.t) : string :=
  tab_joined (text_of_date (WeatherData.date r))
    (text_of_integer (WeatherData.max_temp r))
    (text_of_integer (WeatherData.min_temp r))
    (text_of_integer (WeatherData.precipitation r)).

(** ** A run, whatever the storage refuses *)





(** ** Summary rows and their groups *)







(** ** The text of a date *)



(** ** Ports for the examples *)


(** * Tactics *)

(** Boolean tests on characters turned into facts on their code points. *)
Ltac bool_to_Z :=
  unfold Py.isspace, Py.isdigit, Py.is_char, Py.between in *;
  repeat match goal with
  | H : _ && _ = true |- _ => apply andb_prop in H; destruct H
  | H : _ || _ = false |- _ => apply orb_false_elim in H; destruct H
  | H : _ && _ = false |- _ => apply andb_false_iff in H; destruct H
  | H : _ || _ = true |- _ => apply orb_prop in H; destruct H
  | H : negb _ = true |- _ => apply negb_true_iff in H
  | H : negb _ = false |- _ => apply negb_false_iff in H
  | H : (_ <=? _) = true |- _ => apply Z.leb_le in H
  | H : (_ <=? _) = false |- _ => apply Z.leb_gt in H
  | H : (_ <? _) = true |- _ => apply Z.ltb_lt in H
  | H : (_ <? _) = false |- _ => apply Z.ltb_ge in H
  | H : (_ =? _) = true |- _ => apply Z.eqb_eq in H
  | H : (_ =? _) = false |- _ => apply Z.eqb_neq in H
  end.

(** A boolean test on code points decided from the facts at hand. *)
Ltac decide_test b :=
  let E := fresh "E" in
  destruct b eqn:E; bool_to_Z; try lia; try discriminate.

(** * Properties *)

(** ** Characters and text *)

Lemma ord_range c : 0 <= Py.ord c < 256.
Proof.
  unfold Py.ord. pose proof (N_ascii_bounded c). lia.
Qed.

Lemma ord_inj a b : Py.ord a = Py.ord b -> a = b.
Proof.
  unfold Py.ord. intros H. apply N2Z.inj in H.
  rewrite <- (ascii_N_embedding a), <- (ascii_N_embedding b). now rewrite H.
Qed.

Lemma digit_not_space c : Py.isdigit c = true -> Py.isspace c = false.
Proof.
  intros H. decide_test (Py.isspace c).
Qed.

Lemma lstrip_id p s :
  (forall c, p c = true -> Py.isspace c = false) ->
  string_forall p s = true -> Py.lstrip s = s.
Proof.
  intros Hp. destruct s as [|c s]; simpl; [reflexivity|].
  intros H. apply andb_prop in H. destruct H as [H _].
  now rewrite (Hp _ H).
Qed.

Lemma rstrip_id p s :
  (forall c, p c = true -> Py.isspace c = false) ->
  string_forall p s = true -> Py.rstrip s = s.
Proof.
  intros Hp. induction s as [|c s IH]; simpl; [reflexivity|].
  intros H. apply andb_prop in H. destruct H as [Hc Hs].
  rewrite (IH Hs). destruct s; [now rewrite (Hp _ Hc) | reflexivity].
Qed.

Lemma strip_id p s :
  (forall c, p c = true -> Py.isspace c = false) ->
  string_forall p s = true -> Py.strip s = s.
Proof.
  intros Hp H. unfold Py.strip.
  rewrite (lstrip_id p s Hp H). now apply (rstrip_id p).
Qed.

Lemma string_forall_impl (p q : ascii -> bool) s :
  (forall c, p c = true -> q c = true) ->
  string_forall p s = true -> string_forall q s = true.
Proof.
  intros Hpq. induction s as [|c s IH]; simpl; [reflexivity|].
  intros H. apply andb_prop in H. destruct H as [Hc Hs].
  now rewrite (Hpq _ Hc), IH.
Qed.

Lemma strip_digits s : all_digits s = true -> Py.strip s = s.
Proof. apply strip_id. exact digit_not_space. Qed.

(** ** [str.split] *)



Lemma split_no_tab s : string_forall not_tab s = true -> Py.split TAB s = [s].
Proof.
  induction s as [|c s IH]; simpl; [reflexivity|].
  intros H. apply andb_prop in H. destruct H as [Hc Hs].
  unfold not_tab in Hc. apply negb_true_iff in Hc. rewrite Hc, (IH Hs).
  reflexivity.
Qed.

Lemma split_field f rest :
  string_forall not_tab f = true ->
  Py.split TAB (f ++ String TAB rest) = f :: Py.split TAB rest.
Proof.
  induction f as [|c f IH]; simpl.
  - intros _. reflexivity.
  - intros H. apply andb_prop in H. destruct H as [Hc Hf].
    unfold not_tab in Hc. apply negb_true_iff in Hc.
    rewrite Hc, (IH Hf). reflexivity.
Qed.

Lemma split_tab_joined f0 f1 f2 f3 :
  string_forall not_tab f0 = true -> string_forall not_tab f1 = true ->
  string_forall not_tab f2 = true -> string_forall not_tab f3 = true ->
  Py.split TAB (tab_joined f0 f1 f2 f3) = [f0; f1; f2; f3].
Proof.
  intros H0 H1 H2 H3. unfold tab_joined.
  rewrite !split_field by assumption. now rewrite split_no_tab.
Qed.

Lemma split_nonempty sep s : Py.split sep s <> [].
Proof.
  destruct s as [|c s]; simpl; [discriminate|].
  destruct (Ascii.eqb c sep); [discriminate|].
  destruct (Py.split sep s); discriminate.
Qed.

(** ** [int] *)

Lemma int_digits_decimal s : forall acc b,
  all_digits s = true -> nonempty s = true \/ b = true ->
  Py.int_digits acc b s = Some (decimal acc s).
Proof.
  unfold all_digits.
  induction s as [|c s IH]; simpl; intros acc b H Hb.
  - destruct Hb as [Hb|Hb]; [discriminate | now rewrite Hb].
  - apply andb_prop in H. destruct H as [Hc Hs]. rewrite Hc.
    apply IH; [assumption | now right].
Qed.

Lemma int_all_digits s :
  all_digits s = true -> nonempty s = true -> Py.int s = Some (decimal 0 s).
Proof.
  intros H Hn. unfold Py.int. rewrite (strip_digits s H).
  destruct s as [|c s]; [discriminate|].
  pose proof H as H'. unfold all_digits in H'. simpl in H'.
  apply andb_prop in H'. destruct H' as [Hc _].
  decide_test (Py.ord c =? 45). decide_test (Py.ord c =? 43).
  apply int_digits_decimal; [assumption | now left].
Qed.

Lemma sign_or_digit_not_space c :
  is_sign_or_digit c = true -> Py.isspace c = false.
Proof.
  unfold is_sign_or_digit. intros H. decide_test (Py.isspace c).
Qed.

Lemma sign_or_digit_not_tab c : is_sign_or_digit c = true -> not_tab c = true.
Proof.
  unfold is_sign_or_digit, not_tab. intros H.
  apply negb_true_iff, Ascii.eqb_neq. intros ->.
  change (Py.ord TAB) with 9 in H. unfold Py.isdigit, Py.between in H.
  change (Py.ord TAB) with 9 in H. discriminate.
Qed.

Lemma integer_text_chars s :
  integer_text s = true -> string_forall is_sign_or_digit s = true.
Proof.
  destruct s as [|c r]; simpl; [discriminate|].
  unfold is_sign_or_digit at 1.
  destruct ((Py.ord c =? 45) || (Py.ord c =? 43)) eqn:E; simpl.
  - intros H. apply andb_prop in H. destruct H as [_ H].
    apply (string_forall_impl Py.isdigit); [|exact H].
    intros a Ha. unfold is_sign_or_digit. rewrite Ha. apply orb_true_r.
  - unfold all_digits. simpl. intros H. apply andb_prop in H.
    destruct H as [Hc H]. rewrite Hc. simpl.
    apply (string_forall_impl Py.isdigit); [|exact H].
    intros a Ha. unfold is_sign_or_digit. rewrite Ha. apply orb_true_r.
Qed.

Lemma int_integer_text s :
  integer_text s = true -> Py.int s = Some (integer_value s).
Proof.
  intros H. unfold Py.int.
  rewrite (strip_id is_sign_or_digit s sign_or_digit_not_space (integer_text_chars s H)).
  destruct s as [|c r]; [discriminate|]. simpl in *.
  destruct (Py.ord c =? 45) eqn:E45; simpl in H.
  - apply andb_prop in H. destruct H as [Hn H].
    now rewrite (int_digits_decimal r 0 false H (or_introl Hn)).
  - destruct (Py.ord c =? 43) eqn:E43; simpl in H.
    + apply andb_prop in H. destruct H as [Hn H].
      now rewrite (int_digits_decimal r 0 false H (or_introl Hn)).
    + change (Py.int_digits 0 false (String c r) = Some (decimal 0 (String c r))).
      apply int_digits_decimal; [assumption | now left].
Qed.

Lemma integer_text_no_tab s :
  integer_text s = true -> string_forall not_tab s = true.
Proof.
  intros H. apply (string_forall_impl is_sign_or_digit).
  - exact sign_or_digit_not_tab.
  - now apply integer_text_chars.
Qed.

Lemma digits_no_tab s : all_digits s = true -> string_forall not_tab s = true.
Proof.
  apply string_forall_impl. intros c Hc. apply sign_or_digit_not_tab.
  unfold is_sign_or_digit. rewrite Hc. apply orb_true_r.
Qed.

(** ** [strptime] on eight digits *)

Lemma days_in_month_range y m : 28 <= Py.days_in_month y m <= 31.
Proof.
  unfold Py.days_in_month.
  destruct (m =? 2); [destruct (Py.is_leap y); lia|].
  destruct ((m =? 4) || (m =? 6) || (m =? 9) || (m =? 11)); lia.
Qed.

Lemma eight_digits s :
  matches_YYYYMMDD s = true ->
  exists a b c d e f g h,
    s = String a (String b (String c (String d (String e (String f (String g (String h EmptyString)))))))
    /\ Py.isdigit a = true /\ Py.isdigit b = true /\ Py.isdigit c = true
    /\ Py.isdigit d = true /\ Py.isdigit e = true /\ Py.isdigit f = true
    /\ Py.isdigit g = true /\ Py.isdigit h = true.
Proof.
  unfold matches_YYYYMMDD, all_digits. intros H.
  apply andb_prop in H. destruct H as [Hl Hd]. apply Nat.eqb_eq in Hl.
  do 8 (destruct s as [|? s]; [discriminate|]).
  destruct s; [|discriminate]. simpl in Hd.
  repeat (apply andb_prop in Hd; destruct Hd as [? Hd]).
  do 8 eexists. repeat split; eassumption.
Qed.

Lemma unfinished_backtrack r next :
  unfinished r -> unfinished next ->
  unfinished (match r with Some x => Some x | None => next end).
Proof.
  intros [-> | (y & m & d & c & rest & ->)] Hn; [exact Hn|].
  right. eauto 6.
Qed.

Lemma unfinished_none : unfinished None.
Proof. now left. Qed.

Lemma unfinished_some y m d c rest : unfinished (Some (y, m, d, String c rest)).
Proof. right. eauto 6. Qed.

(** The day group on three characters always leaves text. *)
Lemma day_group_three y m f g h :
  unfinished (Py.group Py.re_d (String f (String g (String h EmptyString)))
                (fun d s3 => Some (y, m, d, s3))).
Proof.
  unfold Py.re_d. cbn [Py.group Py.two Py.one].
  repeat match goal with
  | |- context [if ?b then _ else _] => destruct b
  end; first [apply unfinished_some | apply unfinished_none].
Qed.

Lemma day_group_two y m g h :
  Py.isdigit g = true ->
  let r := Py.group Py.re_d (String g (String h EmptyString))
             (fun d s3 => Some (y, m, d, s3)) in
  if day_two g h
  then r = Some (y, m, String g (String h EmptyString), EmptyString)
  else unfinished r.
Proof.
  intros Hg. unfold day_two, Py.re_d. cbn [Py.group Py.two Py.one].
  destruct (Py.is_char 51 g && Py.between 48 49 h); [reflexivity|].
  destruct (Py.between 49 50 g && Py.isdigit h); [reflexivity|].
  destruct (Py.is_char 48 g && Py.between 49 57 h); [reflexivity|].
  cbn [orb].
  destruct (Py.between 49 57 g); [apply unfinished_some|].
  destruct (Py.is_char 32 g && Py.between 49 57 h) eqn:E;
    [exfalso; bool_to_Z; lia | apply unfinished_none].
Qed.

Lemma month_day_groups y e f g h :
  Py.isdigit e = true -> Py.isdigit g = true ->
  let r := Py.group Py.re_m (String e (String f (String g (String h EmptyString))))
             (fun m s2 => Py.group Py.re_d s2 (fun d s3 => Some (y, m, d, s3))) in
  if month_two e f && day_two g h
  then r = Some (y, String e (String f EmptyString),
                 String g (String h EmptyString), EmptyString)
  else unfinished r.
Proof.
  intros He Hg. unfold month_two, Py.re_m. cbn [Py.group Py.two Py.one].
  assert (Hlast :
    unfinished
      match (if Py.between 49 57 e
             then Some (String e EmptyString, String f (String g (String h EmptyString)))
             else None)
      with
      | Some (captured, rest) =>
          match Py.group Py.re_d rest (fun d s3 => Some (y, captured, d, s3)) with
          | Some r => Some r
          | None => None
          end
      | None => None
      end).
  { destruct (Py.between 49 57 e); [|apply unfinished_none].
    apply unfinished_backtrack; [apply day_group_three | apply unfinished_none]. }
  destruct (Py.is_char 49 e && Py.between 48 50 f) eqn:E1.
  - cbn [orb andb].
    pose proof (day_group_two y (String e (String f EmptyString)) g h Hg) as Hd.
    cbv zeta in Hd. destruct (day_two g h).
    + now rewrite Hd.
    + apply unfinished_backtrack; [exact Hd|].
      destruct (Py.is_char 48 e && Py.between 49 57 f) eqn:E2;
        [exfalso; bool_to_Z; lia | apply Hlast].
  - cbn [orb]. destruct (Py.is_char 48 e && Py.between 49 57 f) eqn:E2.
    + cbn [andb].
      pose proof (day_group_two y (String e (String f EmptyString)) g h Hg) as Hd.
      cbv zeta in Hd. destruct (day_two g h).
      * now rewrite Hd.
      * apply unfinished_backtrack; [exact Hd|]. apply Hlast.
    + cbn [andb]. apply Hlast.
Qed.

Lemma month_two_value e f :
  Py.isdigit e = true -> Py.isdigit f = true ->
  month_two e f =
  (1 <=? 10 * (10 * 0 + Py.digit e) + Py.digit f)
  && (10 * (10 * 0 + Py.digit e) + Py.digit f <=? 12).
Proof.
  intros He Hf. unfold month_two, Py.digit.
  destruct ((Py.is_char 49 e && Py.between 48 50 f)
            || (Py.is_char 48 e && Py.between 49 57 f)) eqn:E;
    symmetry.
  - apply andb_true_iff. rewrite !Z.leb_le. bool_to_Z; lia.
  - apply andb_false_iff. rewrite !Z.leb_gt. bool_to_Z; lia.
Qed.

Lemma day_two_value g h :
  Py.isdigit g = true -> Py.isdigit h = true ->
  day_two g h =
  (1 <=? 10 * (10 * 0 + Py.digit g) + Py.digit h)
  && (10 * (10 * 0 + Py.digit g) + Py.digit h <=? 31).
Proof.
  intros Hg Hh. unfold day_two, Py.digit.
  destruct ((Py.is_char 51 g && Py.between 48 49 h)
            || (Py.between 49 50 g && Py.isdigit h)
            || (Py.is_char 48 g && Py.between 49 57 h)) eqn:E;
    symmetry.
  - apply andb_true_iff. rewrite !Z.leb_le. bool_to_Z; lia.
  - apply andb_false_iff. rewrite !Z.leb_gt. bool_to_Z; lia.
Qed.

Lemma make_date_calendar y m d :
  y <= 9999 ->
  Py.make_date y m d = if calendar_day y m d then Some (Py.Date y m d) else None.
Proof.
  intros Hy. unfold Py.make_date, calendar_day.
  replace (y <=? 9999) with true by (symmetry; now apply Z.leb_le).
  now rewrite andb_true_r.
Qed.

Lemma digit_range c : Py.isdigit c = true -> 0 <= Py.digit c <= 9.
Proof. intros H. unfold Py.digit. bool_to_Z. lia. Qed.

Lemma strptime_eight_digits s :
  matches_YYYYMMDD s = true ->
  Py.strptime_Ymd s =
  if calendar_day (YYYY s) (MM s) (DD s) then Some (date_value s) else None.
Proof.
  intros H.
  destruct (eight_digits s H)
    as (a & b & c & d & e & f & g & h & -> & Ha & Hb & Hc & Hd & He & Hf & Hg & Hh).
  unfold Py.strptime_Ymd, Py.match_Ymd, Py.re_Y.
  rewrite Ha, Hb, Hc, Hd. cbn [andb].
  unfold date_value, YYYY, MM, DD. cbn [substring decimal].
  pose proof (month_day_groups
                (String a (String b (String c (String d EmptyString)))) e f g h He Hg)
    as Hm. cbv zeta in Hm.
  pose proof (month_two_value e f He Hf) as HM.
  pose proof (day_two_value g h Hg Hh) as HD.
  pose proof (digit_range a Ha). pose proof (digit_range b Hb).
  pose proof (digit_range c Hc). pose proof (digit_range d Hd).
  destruct (month_two e f && day_two g h) eqn:E.
  - rewrite Hm.
    rewrite !int_all_digits
      by (unfold all_digits; cbn [string_forall]; rewrite ?Ha, ?Hb, ?Hc, ?Hd, ?He, ?Hf, ?Hg, ?Hh; reflexivity).
    cbn [decimal]. apply make_date_calendar. lia.
  - replace (calendar_day _ _ _) with false.
    + destruct Hm as [-> | (y' & m' & d' & c' & rest & ->)]; reflexivity.
    + symmetry. unfold calendar_day.
      pose proof (days_in_month_range
        (10 * (10 * (10 * (10 * 0 + Py.digit a) + Py.digit b) + Py.digit c) + Py.digit d)
        (10 * (10 * 0 + Py.digit e) + Py.digit f)).
      apply andb_false_iff in E. destruct E as [E|E].
      * rewrite HM in E. bool_to_Z;
          repeat (apply andb_false_iff; first [right; apply Z.leb_gt; lia | left]);
          try (apply Z.leb_gt; lia).
      * rewrite HD in E. bool_to_Z;
          repeat (apply andb_false_iff; first [right; apply Z.leb_gt; lia | left]);
          try (apply Z.leb_gt; lia).
Qed.
(** ** [strip] twice *)

Lemma rstrip_idempotent s : Py.rstrip (Py.rstrip s) = Py.rstrip s.
Proof.
  induction s as [|c s IH]; simpl; [reflexivity|].
  destruct (Py.rstrip s) as [|d r] eqn:E.
  - destruct (Py.isspace c) eqn:Ec; simpl; [reflexivity | now rewrite Ec].
  - simpl in IH. cbn [Py.rstrip]. fold Py.rstrip.
    change (Py.rstrip (String d r)) with
      (match Py.rstrip r with
       | EmptyString => if Py.isspace d then EmptyString else String d EmptyString
       | String a r0 => String d (String a r0)
       end).
    rewrite IH. reflexivity.
Qed.

Lemma lstrip_rstrip s :
  Py.lstrip s = s -> Py.lstrip (Py.rstrip s) = Py.rstrip s.
Proof.
  destruct s as [|c s]; simpl; [reflexivity|].
  destruct (Py.isspace c) eqn:Ec.
  - intros H. exfalso.
    assert (Hl : forall t, (String.length (Py.lstrip t) <= String.length t)%nat).
    { induction t as [|a t IHt]; simpl; [lia|].
      destruct (Py.isspace a); simpl; lia. }
    specialize (Hl s). rewrite H in Hl. simpl in Hl. lia.
  - intros _. destruct (Py.rstrip s); simpl; now rewrite Ec.
Qed.

Lemma lstrip_idempotent s : Py.lstrip (Py.lstrip s) = Py.lstrip s.
Proof.
  induction s as [|c s IH]; simpl; [reflexivity|].
  destruct (Py.isspace c) eqn:Ec; [exact IH | simpl; now rewrite Ec].
Qed.

Lemma strip_idempotent s : Py.strip (Py.strip s) = Py.strip s.
Proof.
  unfold Py.strip.
  rewrite (lstrip_rstrip (Py.lstrip s) (lstrip_idempotent s)).
  apply rstrip_idempotent.
Qed.

(** ** The grammar of integer literals *)

Lemma underscore_char c : Py.ord c = 95 -> c = ascii_of_nat 95.
Proof. intros H. apply ord_inj. exact H. Qed.

Lemma digit_run_nonempty : ~ digit_run EmptyString.
Proof. intros H. inversion H. Qed.

Lemma digit_run_head c s : digit_run (String c s) -> Py.isdigit c = true.
Proof. intros H. inversion H; assumption. Qed.

Lemma int_digits_grammar s : forall acc,
  ((exists z, Py.int_digits acc false s = Some z) <-> digit_run s)
  /\ ((exists z, Py.int_digits acc true s = Some z) <->
      s = EmptyString \/ digit_run s
      \/ exists s', s = String (ascii_of_nat 95) s' /\ digit_run s').
Proof.
  induction s as [|c s IH]; intros acc; simpl.
  - split; split.
    + intros [z Hz]. discriminate.
    + intros H. now apply digit_run_nonempty in H.
    + intros _. now left.
    + intros _. now exists acc.
  - destruct (Py.isdigit c) eqn:Ec.
    + destruct (IH (10 * acc + Py.digit c)) as [_ IHt].
      assert (Hrun : s = EmptyString \/ digit_run s
                     \/ (exists s', s = String (ascii_of_nat 95) s' /\ digit_run s')
                     <-> digit_run (String c s)).
      { split.
        - intros [-> | [H | (s' & -> & H)]];
            [now apply run_digit | now apply run_more | now apply run_underscore].
        - intros H. inversion H; subst; [now left | right; now left |].
          right; right. eauto. }
      split; [now rewrite IHt|].
      rewrite IHt, Hrun. split; [intros H; right; now left|].
      intros [H | [H | (s' & H & _)]]; [discriminate | exact H |].
      injection H as -> _. discriminate.
    + split.
      * rewrite andb_false_r. split; [intros [z Hz]; discriminate|].
        intros H. apply digit_run_head in H. congruence.
      * rewrite andb_true_r. destruct (Py.ord c =? 95) eqn:E95.
        -- apply Z.eqb_eq, underscore_char in E95. subst c.
           destruct (IH acc) as [IHf _]. rewrite IHf. split.
           ++ intros H. right; right. eauto.
           ++ intros [H | [H | (s' & H & Hr)]]; [discriminate | |].
              ** apply digit_run_head in H. congruence.
              ** now injection H as ->.
        -- split; [intros [z Hz]; discriminate|].
           intros [H | [H | (s' & H & _)]]; [discriminate | |].
           ++ apply digit_run_head in H. congruence.
           ++ injection H as -> _. discriminate.
Qed.

Lemma int_reads_literals s :
  (exists z, Py.int s = Some z) <-> int_literal (Py.strip s).
Proof.
  unfold Py.int. destruct (Py.strip s) as [|c rest].
  - split; [intros [z Hz]; discriminate|].
    intros H. inversion H as [t Ht|t Ht|t Ht]. now apply digit_run_nonempty in Ht.
  - destruct (Py.ord c =? 45) eqn:E45; [|destruct (Py.ord c =? 43) eqn:E43].
    + apply Z.eqb_eq in E45. assert (c = ascii_of_nat 45) by (now apply ord_inj).
      subst c. destruct (int_digits_grammar rest 0) as [Hg _]. split.
      * intros [z Hz]. apply literal_minus, Hg.
        destruct (Py.int_digits 0 false rest); [eauto | discriminate].
      * intros H. inversion H as [t Ht|t Ht|t Ht]; subst.
        -- apply digit_run_head in Ht. discriminate.
        -- apply Hg in Ht. destruct Ht as [z ->]. simpl. eauto.
    + apply Z.eqb_eq in E43. assert (c = ascii_of_nat 43) by (now apply ord_inj).
      subst c. destruct (int_digits_grammar rest 0) as [Hg _]. split.
      * intros H. now apply literal_plus, Hg.
      * intros H. inversion H as [t Ht|t Ht|t Ht]; subst.
        -- apply digit_run_head in Ht. discriminate.
        -- now apply Hg.
    + destruct (int_digits_grammar (String c rest) 0) as [Hg _]. split.
      * intros H. now apply literal_plain, Hg.
      * intros H. inversion H as [t Ht|t Ht|t Ht]; subst.
        -- now apply Hg.
        -- discriminate.
        -- discriminate.
Qed.

Lemma int_none_iff s : Py.int s = None <-> ~ int_literal (Py.strip s).
Proof.
  rewrite <- int_reads_literals. destruct (Py.int s) as [z|].
  - split; [discriminate | intros H; exfalso; apply H; eauto].
  - split; [intros _ [z Hz]; discriminate | reflexivity].
Qed.

(** ** Writing a record and reading it back *)

Lemma ord_digit_char n : 0 <= n <= 9 -> Py.ord (digit_char n) = 48 + n.
Proof.
  intros H. unfold Py.ord, digit_char.
  rewrite N_ascii_embedding by lia. lia.
Qed.

Lemma isdigit_digit_char n : 0 <= n <= 9 -> Py.isdigit (digit_char n) = true.
Proof.
  intros H. unfold Py.isdigit, Py.between. rewrite (ord_digit_char n H).
  apply andb_true_iff. split; apply Z.leb_le; lia.
Qed.

Lemma digit_digit_char n : 0 <= n <= 9 -> Py.digit (digit_char n) = n.
Proof. intros H. unfold Py.digit. rewrite (ord_digit_char n H). lia. Qed.

Lemma decimal_text_spec fuel : forall n rest,
  0 <= n < 2 ^ Z.of_nat fuel -> all_digits rest = true ->
  all_digits (decimal_text fuel n rest) = true
  /\ decimal 0 (decimal_text fuel n rest) = decimal n rest
  /\ (fuel <> O -> nonempty (decimal_text fuel n rest) = true).
Proof.
  induction fuel as [|fuel IH]; intros n rest Hn Hr.
  - cbn in *. assert (n = 0) by lia. subst n. repeat split; [exact Hr | congruence].
  - cbn [decimal_text].
    assert (Hm : 0 <= n mod 10 <= 9) by (pose proof (Z.mod_pos_bound n 10); lia).
    assert (Hr' : all_digits (String (digit_char (n mod 10)) rest) = true).
    { unfold all_digits in *. cbn. now rewrite (isdigit_digit_char _ Hm), Hr. }
    destruct (n <? 10) eqn:E.
    + apply Z.ltb_lt in E. repeat split; [exact Hr'|].
      cbn [decimal]. rewrite (digit_digit_char _ Hm).
      rewrite Z.mod_small by lia. f_equal.
    + apply Z.ltb_ge in E.
      assert (Hd : 0 <= n / 10 < 2 ^ Z.of_nat fuel).
      { split; [apply Z.div_pos; lia|].
        apply Z.div_lt_upper_bound; [lia|].
        rewrite Nat2Z.inj_succ, Z.pow_succ_r in Hn by lia. lia. }
      destruct (IH (n / 10) _ Hd Hr') as (H1 & H2 & H3).
      split; [exact H1|]. split.
      * rewrite H2. cbn [decimal]. rewrite (digit_digit_char _ Hm).
        f_equal. pose proof (Z.div_mod n 10). lia.
      * intros _. destruct fuel as [|fuel']; [|apply H3; discriminate].
        cbn in Hd. lia.
Qed.

Lemma natural_text_spec n :
  0 <= n ->
  all_digits (natural_text n) = true
  /\ decimal 0 (natural_text n) = n
  /\ nonempty (natural_text n) = true.
Proof.
  intros Hn. unfold natural_text.
  assert (Hb : 0 <= n < 2 ^ Z.of_nat (S (Z.to_nat (Z.log2 n)))).
  { split; [exact Hn|]. rewrite Nat2Z.inj_succ, Z2Nat.id by apply Z.log2_nonneg.
    destruct (Z.eq_dec n 0) as [-> | Hne]; [cbn; lia|].
    apply Z.log2_spec. lia. }
  destruct (decimal_text_spec _ n EmptyString Hb eq_refl) as (H1 & H2 & H3).
  split; [exact H1|]. split; [exact H2|]. apply H3. discriminate.
Qed.

Lemma text_of_integer_spec z :
  integer_text (text_of_integer z) = true
  /\ integer_value (text_of_integer z) = z.
Proof.
  unfold text_of_integer. destruct (z <? 0) eqn:E.
  - apply Z.ltb_lt in E.
    destruct (natural_text_spec (- z)) as (H1 & H2 & H3); [lia|].
    unfold integer_text, integer_value.
    replace (Py.ord (ascii_of_nat 45) =? 45) with true by reflexivity.
    cbn [orb]. rewrite H1, H2, H3. split; [reflexivity | lia].
  - apply Z.ltb_ge in E.
    destruct (natural_text_spec z E) as (H1 & H2 & H3).
    destruct (natural_text z) as [|c r] eqn:Et; [discriminate|].
    pose proof H1 as Hc. unfold all_digits in Hc. cbn in Hc.
    apply andb_prop in Hc. destruct Hc as [Hc _].
    unfold integer_text, integer_value.
    destruct (Py.ord c =? 45) eqn:E45; [exfalso; bool_to_Z; lia|].
    destruct (Py.ord c =? 43) eqn:E43; [exfalso; bool_to_Z; lia|].
    cbn [orb]. split; [exact H1 | exact H2].
Qed.

Lemma text_of_date_spec d :
  calendar_day (Py.year d) (Py.month d) (Py.day d) = true -> Py.year d <= 9999 ->
  valid_date_text (text_of_date d) = true /\ date_value (text_of_date d) = d.
Proof.
  destruct d as [y m dd]. cbn [Py.year Py.month Py.day]. intros Hc Hy.
  pose proof (days_in_month_range y m) as Hdim.
  pose proof Hc as Hc'. unfold calendar_day in Hc'. bool_to_Z.
  assert (Hval : YYYY (text_of_date (Py.Date y m dd)) = y
                 /\ MM (text_of_date (Py.Date y m dd)) = m
                 /\ DD (text_of_date (Py.Date y m dd)) = dd).
  { unfold YYYY, MM, DD, text_of_date. cbn [Py.year Py.month Py.day substring decimal].
    rewrite !digit_digit_char by (Z.to_euclidean_division_equations; lia).
    repeat split; Z.to_euclidean_division_equations; lia. }
  destruct Hval as (HY & HM & HD).
  split.
  - unfold valid_date_text. rewrite HY, HM, HD, Hc, andb_true_r.
    unfold matches_YYYYMMDD, all_digits, text_of_date.
    cbn [Py.year Py.month Py.day String.length Nat.eqb string_forall andb].
    rewrite !isdigit_digit_char by (Z.to_euclidean_division_equations; lia).
    reflexivity.
  - unfold date_value. now rewrite HY, HM, HD.
Qed.

(** ** The line parser *)

Lemma valid_date_text_digits s : valid_date_text s = true -> all_digits s = true.
Proof.
  unfold valid_date_text, matches_YYYYMMDD. intros H.
  apply andb_prop in H. destruct H as [H _].
  apply andb_prop in H. now destruct H.
Qed.

Lemma parse_line_fields (station_id f0 f1 f2 f3 : string) :
  valid_date_text f0 = true ->
  integer_text f1 = true -> integer_text f2 = true -> integer_text f3 = true ->
  _parse_line (tab_joined f0 f1 f2 f3) station_id =
  inr (WeatherData.Make station_id (date_value f0) (integer_value f1)
         (integer_value f2) (integer_value f3) None).
Proof.
  intros H0 H1 H2 H3.
  pose proof (valid_date_text_digits f0 H0) as Hd.
  unfold _parse_line.
  rewrite split_tab_joined
    by (first [now apply digits_no_tab | now apply integer_text_no_tab]).
  cbn [List.length Nat.eqb negb nth].
  rewrite (strip_digits f0 Hd).
  rewrite !(strip_id is_sign_or_digit) by
    (first [exact sign_or_digit_not_space | now apply integer_text_chars]).
  rewrite (int_integer_text f1 H1), (int_integer_text f2 H2), (int_integer_text f3 H3).
  unfold valid_date_text in H0. apply andb_prop in H0. destruct H0 as [Hm Hc].
  now rewrite (strptime_eight_digits f0 Hm), Hc.
Qed.

(** C4. A line of four tab-separated fields, the first a valid YYYYMMDD
    date and the other three valid integers, is parsed successfully: the
    record carries the station identifier of the caller, the calendar date
    the first field names, and the three integers the other fields denote,
    unconverted. Reading is the inverse of writing: the line that spells a
    record (its date as eight digits, its integers in decimal) is parsed
    back to that very record. *)
Theorem parse_line_valid_fields :
  (forall station_id f0 f1 f2 f3 : string,
     valid_date_text f0 = true ->
     integer_text f1 = true -> integer_text f2 = true -> integer_text f3 = true ->
     _parse_line (tab_joined f0 f1 f2 f3) station_id =
     inr (WeatherData.Make station_id (date_value f0) (integer_value f1)
            (integer_value f2) (integer_value f3) None))
  /\ (forall record : WeatherData.t,
        calendar_day (Py.year (WeatherData.date record))
          (Py.month (WeatherData.date record)) (Py.day (WeatherData.date record)) = true ->
        Py.year (WeatherData.date record) <= 9999 ->
        WeatherData.created_at record = None ->
        _parse_line (line_of record) (WeatherData.station_id record) = inr record).
Proof.
  split; [exact parse_line_fields|].
  intros [station_id date max_temp min_temp precipitation created_at].
  cbn [WeatherData.date WeatherData.station_id WeatherData.created_at].
  intros Hc Hy ->. unfold line_of.
  cbn [WeatherData.date WeatherData.max_temp WeatherData.min_temp
       WeatherData.precipitation].
  destruct (text_of_date_spec date Hc Hy) as [Hd1 Hd2].
  destruct (text_of_integer_spec max_temp) as [Ha1 Ha2].
  destruct (text_of_integer_spec min_temp) as [Hb1 Hb2].
  destruct (text_of_integer_spec precipitation) as [Hp1 Hp2].
  rewrite (parse_line_fields station_id _ _ _ _ Hd1 Ha1 Hb1 Hp1).
  now rewrite Hd2, Ha2, Hb2, Hp2.
Qed.

(** The fixture of C4: the line of the test suite, with station S1, is
    parsed to the record of 1 January 1985, and is the line that spells
    that record. *)
Lemma parse_line_fixture :
  _parse_line (tab_joined "19850101" "-22" "-128" "94") "S1" =
  inr (WeatherData.Make "S1" (Py.Date 1985 1 1) (-22) (-128) 94 None)
  /\ line_of (WeatherData.Make "S1" (Py.Date 1985 1 1) (-22) (-128) 94 None)
     = tab_joined "19850101" "-22" "-128" "94"
  /\ _parse_line (line_of (WeatherData.Make "S1" (Py.Date 1985 1 1) (-22) (-128) 94 None))
       "S1"
     = inr (WeatherData.Make "S1" (Py.Date 1985 1 1) (-22) (-128) 94 None).
Proof.
  destruct parse_line_valid_fields as [Hfields Hback].
  split; [|split].
  - exact (Hfields "S1" "19850101" "-22" "-128" "94"
             eq_refl eq_refl eq_refl eq_refl)%string.
  - reflexivity.
  - apply (Hback (WeatherData.Make "S1" (Py.Date 1985 1 1) (-22) (-128) 94 None));
      [reflexivity | cbn; lia | reflexivity].
Defined.

(** C10. A line whose date field is eight digits that name no day of the
    calendar (19850231, 19851301) is refused with the parse error, whatever
    the other fields hold. *)
Theorem parse_line_rejects_impossible_dates (line station_id : string) :
  matches_YYYYMMDD (nth 0 (Py.split TAB line) EmptyString) = true ->
  valid_date_text (nth 0 (Py.split TAB line) EmptyString) = false ->
  _parse_line line station_id = inl ValueError.
Proof.
  intros Hm Hv. unfold _parse_line.
  destruct (negb (Nat.eqb (List.length (Py.split TAB line)) 4)); [reflexivity|].
  destruct (Py.int _); [|reflexivity].
  destruct (Py.int _); [|reflexivity].
  destruct (Py.int _); [|reflexivity].
  pose proof Hm as Hd. unfold matches_YYYYMMDD in Hd.
  apply andb_prop in Hd. destruct Hd as [_ Hd].
  rewrite (strip_digits _ Hd), (strptime_eight_digits _ Hm).
  unfold valid_date_text in Hv. rewrite Hm in Hv. simpl in Hv. now rewrite Hv.
Qed.

(** C10 at 31 February 1985 and at month 13. *)
Lemma parse_line_rejects_feb_31_and_month_13 :
  _parse_line (tab_joined "19850231" "-22" "-128" "94") "S1" = inl ValueError
  /\ _parse_line (tab_joined "19851301" "-22" "-128" "94") "S1" = inl ValueError.
Proof.
  split.
  - exact (parse_line_rejects_impossible_dates
             (tab_joined "19850231" "-22" "-128" "94") "S1" eq_refl eq_refl).
  - exact (parse_line_rejects_impossible_dates
             (tab_joined "19851301" "-22" "-128" "94") "S1" eq_refl eq_refl).
Defined.

(** C5 as stated fails in both directions: 31 February is eight digits
    with three integers after it and is refused; a seven-digit date field
    is no YYYYMMDD text and is accepted. *)
Lemma parse_line_failure_not_as_stated :
  (_parse_line (tab_joined "19850231" "1" "2" "3") "S1" = inl ValueError
   /\ stated_failure_condition (tab_joined "19850231" "1" "2" "3") = false)
  /\ (_parse_line (tab_joined "1985011" "1" "2" "3") "S1"
        = inr (WeatherData.Make "S1" (Py.Date 1985 1 1) 1 2 3 None)
      /\ stated_failure_condition (tab_joined "1985011" "1" "2" "3") = true).
Proof. repeat split. Qed.

(** C5, amended. Parsing fails exactly when the line does not split into
    four fields at tabs, or [strptime] with the format %Y%m%d refuses the
    trimmed date field, or one of the three trimmed numeric fields is no
    integer literal; the failure is always the parse error [ValueError].
    On an eight-digit field [strptime] refuses exactly the texts that name
    no day of the calendar. The three-field line of the test suite fails.
    The parser is a function of the line and the station alone. *)
Theorem parse_line_fails_iff (line station_id : string) :
  let parts := Py.split TAB line in
  let field i := Py.strip (nth i parts EmptyString) in
  ((exists e, _parse_line line station_id = inl e) <->
     List.length parts <> 4%nat
     \/ Py.strptime_Ymd (field 0%nat) = None
     \/ ~ int_literal (field 1%nat)
     \/ ~ int_literal (field 2%nat)
     \/ ~ int_literal (field 3%nat))
  /\ (forall e, _parse_line line station_id = inl e -> e = ValueError)
  /\ (forall s, matches_YYYYMMDD s = true ->
        (Py.strptime_Ymd s = None <-> valid_date_text s = false))
  /\ _parse_line (String.concat (String TAB EmptyString) ["19850101"; "-22"; "-128"]%string)
       station_id = inl ValueError.
Proof.
  cbv zeta. split; [split|split; [|split]].
  - intros [e He]. unfold _parse_line in He.
    destruct (Nat.eqb (List.length (Py.split TAB line)) 4) eqn:El;
      [|left; now apply Nat.eqb_neq].
    right. cbn [negb] in He.
    destruct (Py.int (Py.strip (nth 1 _ _))) eqn:E1;
      [|right; left; rewrite <- strip_idempotent; now apply int_none_iff].
    destruct (Py.int (Py.strip (nth 2 _ _))) eqn:E2;
      [|right; right; left; rewrite <- strip_idempotent; now apply int_none_iff].
    destruct (Py.int (Py.strip (nth 3 _ _))) eqn:E3;
      [|right; right; right; rewrite <- strip_idempotent; now apply int_none_iff].
    destruct (Py.strptime_Ymd _); [discriminate | now left].
  - intros H. unfold _parse_line.
    destruct (Nat.eqb (List.length (Py.split TAB line)) 4) eqn:El; cbn [negb]; [|eauto].
    destruct H as [H | H]; [apply Nat.eqb_eq in El; contradiction|].
    destruct (Py.int (Py.strip (nth 1 _ _))) eqn:E1; [|eauto].
    destruct (Py.int (Py.strip (nth 2 _ _))) eqn:E2; [|eauto].
    destruct (Py.int (Py.strip (nth 3 _ _))) eqn:E3; [|eauto].
    destruct H as [H | [H | [H | H]]].
    + rewrite H. eauto.
    + exfalso. apply H. rewrite <- strip_idempotent. apply int_reads_literals. eauto.
    + exfalso. apply H. rewrite <- strip_idempotent. apply int_reads_literals. eauto.
    + exfalso. apply H. rewrite <- strip_idempotent. apply int_reads_literals. eauto.
  - intros e. unfold _parse_line.
    repeat match goal with
    | |- context [match ?x with _ => _ end] => destruct x
    | |- context [if ?x then _ else _] => destruct x
    end; congruence.
  - intros s Hs. rewrite (strptime_eight_digits s Hs). unfold valid_date_text.
    rewrite Hs. simpl. destruct (calendar_day _ _ _); split; congruence.
  - reflexivity.
Qed.
(** ** Rows and their (station, date) pairs *)

Lemma known_app rows1 rows2 r :
  known (rows1 ++ rows2) r = known rows1 r || known rows2 r.
Proof. unfold known. apply existsb_app. Qed.

Lemma known_stamp rows now r x :
  known (rows ++ [Session.stamp now r]) x = known (rows ++ [r]) x.
Proof. rewrite !known_app. reflexivity. Qed.

Lemma newcomers_ext rs : forall rows1 rows2,
  (forall x, known rows1 x = known rows2 x) ->
  newcomers rows1 rs = newcomers rows2 rs.
Proof.
  induction rs as [|r rs IH]; intros rows1 rows2 H; simpl; [reflexivity|].
  rewrite (H r). destruct (known rows2 r); [now apply IH|].
  f_equal. apply IH. intros x. rewrite !known_app. now rewrite H.
Qed.

Lemma newcomers_after_stamp rows now r rs :
  newcomers (rows ++ [Session.stamp now r]) rs = newcomers (rows ++ [r]) rs.
Proof. apply newcomers_ext. intros x. apply known_stamp. Qed.

Lemma newcomers_length rows rs :
  (List.length (newcomers rows rs) <= List.length rs)%nat.
Proof.
  revert rows. induction rs as [|r rs IH]; intros rows; simpl; [lia|].
  destruct (known rows r); simpl.
  - specialize (IH rows). lia.
  - specialize (IH (rows ++ [r])%list). lia.
Qed.

(** ** One record at a time *)

Lemma classified_nil w : classified [] w = w.
Proof.
  unfold classified, accept. destruct w as [bs [fp ri rk er] [wd ws ck rf] fl].
  cbn. rewrite app_nil_r, !Nat.add_0_r. reflexivity.
Qed.

Lemma process_individually_spec batch : forall w,
  _process_individually batch w =
  let done := until_refused (Session.refuses (Ing.session w)) batch in
  (if Nat.eqb (List.length done) (List.length batch)
   then Ok tt else Raise OtherStorageError,
   classified done w).
Proof.
  induction batch as [|r rest IH]; intros w.
  - cbn [_process_individually until_refused]. cbv zeta.
    now rewrite classified_nil.
  - cbn [_process_individually until_refused]. cbv zeta.
    unfold bind at 1, try_except, bind at 1, add_and_commit, Session.insert.
    destruct (Session.refuses (Ing.session w) r) eqn:Er.
    + cbn. now rewrite classified_nil.
    + fold (known (Session.weather_data (Ing.session w)) r).
      destruct (known (Session.weather_data (Ing.session w)) r) eqn:Ek.
      * cbn. rewrite IH. cbv zeta. cbn [Ing.session set_stats].
        f_equal.
        unfold classified, accept. cbn -[Nat.sub Nat.add]. rewrite Ek.
        destruct w as [bs [fp ri rk er] [wd ws ck rf] fl]. cbn -[Nat.sub Nat.add] in *.
        pose proof (newcomers_length wd (until_refused rf rest)).
        f_equal. f_equal; lia.
      * cbn. rewrite IH. cbv zeta. cbn [Ing.session set_stats set_session].
        f_equal.
        unfold classified, accept. cbn -[Nat.sub Nat.add]. rewrite Ek.
        destruct w as [bs [fp ri rk er] [wd ws ck rf] fl]. cbn -[Nat.sub Nat.add] in *.
        rewrite newcomers_after_stamp.
        pose proof (newcomers_length (wd ++ [r]) (until_refused rf rest)).
        f_equal; [f_equal; lia|].
        rewrite <- app_assoc. cbn. f_equal. lia.
Qed.

(** ** A whole batch *)

Lemma until_refused_all refuses rs :
  (forall r, In r rs -> refuses r = false) -> until_refused refuses rs = rs.
Proof.
  induction rs as [|r rs IH]; intros H; simpl; [reflexivity|].
  rewrite (H r (or_introl eq_refl)). f_equal. apply IH.
  intros x Hx. apply H. now right.
Qed.

Lemma insert_all_ok rs : forall db db',
  Session.insert_all db rs = inr db' ->
  db' = accept rs db
  /\ newcomers (Session.weather_data db) rs = rs
  /\ until_refused (Session.refuses db) rs = rs.
Proof.
  induction rs as [|r rs IH]; intros db db'; cbn [Session.insert_all].
  - intros [= <-]. unfold accept. destruct db as [wd ws ck rf]. cbn.
    now rewrite app_nil_r, Nat.add_0_r.
  - unfold Session.insert. cbn [until_refused newcomers].
    destruct (Session.refuses db r) eqn:Er; [discriminate|].
    fold (known (Session.weather_data db) r).
    destruct (known (Session.weather_data db) r) eqn:Ek; [discriminate|].
    intros H. apply IH in H. cbn in H. destruct H as (-> & Hn & Hu).
    rewrite newcomers_after_stamp in Hn. rewrite Hn, Hu.
    repeat split. unfold accept. cbn [Session.weather_data Session.clock
      Session.weather_stats Session.refuses newcomers].
    rewrite Ek, newcomers_after_stamp, Hn. cbn.
    rewrite <- app_assoc. cbn. f_equal. lia.
Qed.

Lemma insert_all_error rs : forall db e,
  Session.insert_all db rs = inl e ->
  (e = IntegrityError \/ e = OtherStorageError)
  /\ (none_refused db rs -> e = IntegrityError).
Proof.
  induction rs as [|r rs IH]; intros db e; cbn [Session.insert_all];
    [discriminate|].
  unfold Session.insert.
  destruct (Session.refuses db r) eqn:Er.
  - intros [= <-]. split; [now right|]. intros H.
    rewrite (H r (or_introl eq_refl)) in Er. discriminate.
  - destruct (existsb _ _).
    + intros [= <-]. split; [now left | reflexivity].
    + intros H. apply IH in H. destruct H as [H1 H2]. split; [exact H1|].
      intros Hn. apply H2. intros x Hx. apply Hn. now right.
Qed.

Lemma classified_all_new batch w :
  newcomers (Session.weather_data (Ing.session w)) batch = batch ->
  classified batch w =
  Ing.Make (Ing.batch_size w)
    (Ing.MakeStats (Ing.files_processed (Ing.stats w))
       (Ing.records_ingested (Ing.stats w) + List.length batch)
       (Ing.records_skipped (Ing.stats w))
       (Ing.errors (Ing.stats w)))
    (accept batch (Ing.session w)) (Ing.flushed w).
Proof.
  intros H. unfold classified. rewrite H, Nat.sub_diag, Nat.add_0_r. reflexivity.
Qed.

(** The fallback of [_process_batch]: after a bulk insert that failed on
    the uniqueness constraint, the records before the first refused one
    are classified; a refusal is raised on. *)
Lemma retry_after_integrity_error batch w :
  Session.insert_all (Ing.session w) batch = inl IntegrityError ->
  _process_batch batch w =
  let done := until_refused (Session.refuses (Ing.session w)) batch in
  (if Nat.eqb (List.length done) (List.length batch)
   then Ok tt else Raise OtherStorageError,
   classified done (with_flushed [batch] w)).
Proof.
  intros H. unfold _process_batch, bind at 1, trace_flush, modify, try_except,
    bind at 1, bulk_save_and_commit.
  cbn [Ing.session with_flushed]. rewrite H. unfold bind, rollback, ret.
  rewrite process_individually_spec. reflexivity.
Qed.

(** [_process_batch] when the storage refuses no record of the batch. *)
Lemma process_batch_spec batch w :
  none_refused (Ing.session w) batch ->
  _process_batch batch w = (Ok tt, classified batch (with_flushed [batch] w)).
Proof.
  intros Hn. destruct (Session.insert_all (Ing.session w) batch) as [e|db'] eqn:E.
  - destruct (insert_all_error _ _ _ E) as [_ He]. specialize (He Hn). subst e.
    rewrite (retry_after_integrity_error batch w E). cbv zeta.
    rewrite (until_refused_all _ _ Hn), Nat.eqb_refl. reflexivity.
  - unfold _process_batch, bind at 1, trace_flush, modify, try_except,
      bind at 1, bulk_save_and_commit.
    cbn [Ing.session with_flushed]. rewrite E.
    apply insert_all_ok in E. destruct E as (-> & Hnew & _).
    cbn. f_equal. rewrite (classified_all_new batch (with_flushed [batch] w) Hnew).
    reflexivity.
Qed.
(** ** Batches one after the other *)

Lemma known_stamp_from now rs x : known (stamp_from now rs) x = known rs x.
Proof.
  revert now. induction rs as [|r rs IH]; intros now; [reflexivity|].
  unfold known in *. cbn. now rewrite IH.
Qed.

Lemma stamp_from_app rs1 rs2 now :
  stamp_from now (rs1 ++ rs2) =
  (stamp_from now rs1 ++ stamp_from (now + List.length rs1) rs2)%list.
Proof.
  revert now. induction rs1 as [|r rs1 IH]; intros now; cbn.
  - now rewrite Nat.add_0_r.
  - rewrite IH. do 3 f_equal. lia.
Qed.

Lemma newcomers_app rs1 rs2 : forall rows,
  newcomers rows (rs1 ++ rs2) =
  (newcomers rows rs1 ++ newcomers (rows ++ newcomers rows rs1) rs2)%list.
Proof.
  induction rs1 as [|r rs1 IH]; intros rows; cbn.
  - now rewrite app_nil_r.
  - destruct (known rows r); [apply IH|].
    cbn. rewrite IH, <- app_assoc. reflexivity.
Qed.

Lemma newcomers_after_stamps rows now new rs :
  newcomers (rows ++ stamp_from now new) rs = newcomers (rows ++ new) rs.
Proof.
  apply newcomers_ext. intros x. rewrite !known_app. now rewrite known_stamp_from.
Qed.

Lemma accept_app rs1 rs2 db : accept rs2 (accept rs1 db) = accept (rs1 ++ rs2) db.
Proof.
  unfold accept. destruct db as [wd ws ck rf]. cbn.
  rewrite newcomers_app, newcomers_after_stamps, stamp_from_app, length_app.
  rewrite <- app_assoc. f_equal. lia.
Qed.

Lemma weather_data_accept rs db :
  Session.weather_data (accept rs db) =
  (Session.weather_data db
     ++ stamp_from (Session.clock db) (newcomers (Session.weather_data db) rs))%list.
Proof. reflexivity. Qed.

Lemma classified_app rs1 rs2 w :
  classified rs2 (classified rs1 w) = classified (rs1 ++ rs2) w.
Proof.
  unfold classified at 1 2. cbn [Ing.session Ing.stats Ing.batch_size Ing.flushed
    Ing.files_processed Ing.records_ingested Ing.records_skipped Ing.errors].
  rewrite accept_app, weather_data_accept, newcomers_after_stamps.
  unfold classified. rewrite newcomers_app, !length_app.
  pose proof (newcomers_length (Session.weather_data (Ing.session w)) rs1).
  pose proof (newcomers_length
    (Session.weather_data (Ing.session w)
       ++ newcomers (Session.weather_data (Ing.session w)) rs1) rs2).
  f_equal. f_equal; lia.
Qed.

Lemma classified_with_flushed rs bs w :
  classified rs (with_flushed bs w) = with_flushed bs (classified rs w).
Proof. reflexivity. Qed.

Lemma classified_with_errors rs n w :
  classified rs (with_errors n w) = with_errors n (classified rs w).
Proof. reflexivity. Qed.

Lemma with_flushed_app bs1 bs2 w :
  with_flushed bs2 (with_flushed bs1 w) = with_flushed (bs1 ++ bs2) w.
Proof. unfold with_flushed. cbn. now rewrite app_assoc. Qed.

Lemma with_flushed_nil w : with_flushed [] w = w.
Proof. unfold with_flushed. destruct w. cbn. now rewrite app_nil_r. Qed.

Lemma with_errors_0 w : with_errors 0 w = w.
Proof.
  unfold with_errors, set_stats. destruct w as [bs [fp ri rk er] db fl]. cbn.
  now rewrite Nat.add_0_r.
Qed.

Lemma with_errors_add n m w :
  with_errors n (with_errors m w) = with_errors (m + n) w.
Proof.
  unfold with_errors, set_stats. cbn. now rewrite Nat.add_assoc.
Qed.

Lemma with_errors_with_flushed n bs w :
  with_errors n (with_flushed bs w) = with_flushed bs (with_errors n w).
Proof. reflexivity. Qed.

Lemma none_refused_app db rs1 rs2 :
  none_refused db (rs1 ++ rs2) <-> none_refused db rs1 /\ none_refused db rs2.
Proof.
  unfold none_refused. split.
  - intros H. split; intros r Hr; apply H, in_or_app; auto.
  - intros [H1 H2] r Hr. apply in_app_or in Hr. destruct Hr; auto.
Qed.

(** ** The lines of a file *)

Lemma ingest_lines_spec station_id lines : forall batch w,
  none_refused (Ing.session w) (batch ++ parsed_records station_id lines) ->
  ingest_lines station_id lines batch w =
  (Ok (snd (batches (Ing.batch_size w) batch (parsed_records station_id lines))),
   with_errors (parse_failures station_id lines)
     (with_flushed
        (fst (batches (Ing.batch_size w) batch (parsed_records station_id lines)))
        (classified
           (List.concat (fst (batches (Ing.batch_size w) batch
                           (parsed_records station_id lines)))) w))).
Proof.
  induction lines as [|raw rest IH]; intros batch w Hn.
  - cbn [ingest_lines parsed_records parse_failures batches fst snd List.concat].
    unfold ret. rewrite classified_nil, with_flushed_nil. now rewrite with_errors_0.
  - cbn [ingest_lines parsed_records parse_failures]. revert Hn.
    cbn [parsed_records].
    destruct (Py.strip raw) as [|c line] eqn:Es; [now apply IH|].
    destruct (_parse_line (String c line) station_id) as [e|record] eqn:Ep;
      intros Hn.
    + unfold bind, add_errors, modify. rewrite IH by exact Hn.
      cbn [Ing.batch_size with_errors set_stats Ing.session].
      f_equal. rewrite classified_with_errors, <- with_errors_with_flushed.
      now rewrite with_errors_add.
    + cbn [batches].
      assert (Hn' : none_refused (Ing.session w) (batch ++ [record])
                    /\ none_refused (Ing.session w) (parsed_records station_id rest)).
      { change (record :: parsed_records station_id rest)
          with ([record] ++ parsed_records station_id rest)%list in Hn.
        rewrite app_assoc in Hn. now apply none_refused_app in Hn. }
      destruct Hn' as [Hb Hr].
      destruct (Z.of_nat (List.length (batch ++ [record])) >=? Ing.batch_size w).
      * rewrite (process_batch_spec _ _ Hb).
        rewrite IH by exact Hr.
        cbn [Ing.batch_size classified with_flushed].
        destruct (batches (Ing.batch_size w) [] (parsed_records station_id rest))
          as [full left]. cbn [fst snd List.concat].
        f_equal. rewrite !classified_with_flushed, classified_app.
        now rewrite with_flushed_app.
      * apply IH. rewrite <- app_assoc. exact Hn.
Qed.
(** ** Batches as lists *)

Lemma batches_concat size records : forall batch,
  (List.concat (fst (batches size batch records)) ++ snd (batches size batch records)
   = batch ++ records)%list.
Proof.
  induction records as [|r rs IH]; intros batch; cbn [batches].
  - cbn. now rewrite app_nil_r.
  - destruct (Z.of_nat (List.length (batch ++ [r])) >=? size).
    + specialize (IH []). destruct (batches size [] rs) as [full left].
      cbn in *. rewrite <- !app_assoc, IH. reflexivity.
    + rewrite IH, <- app_assoc. reflexivity.
Qed.

Lemma batches_sizes size records : forall batch,
  1 <= size -> Z.of_nat (List.length batch) < size ->
  Forall (fun b => Z.of_nat (List.length b) = size) (fst (batches size batch records))
  /\ Z.of_nat (List.length (snd (batches size batch records))) < size.
Proof.
  induction records as [|r rs IH]; intros batch Hs Hb; cbn [batches].
  - cbn. split; [constructor | exact Hb].
  - destruct (Z.of_nat (List.length (batch ++ [r])) >=? size) eqn:E.
    + apply Z.geb_le in E.
      destruct (IH [] Hs) as [IH1 IH2]; [cbn; lia|].
      destruct (batches size [] rs) as [full left]. cbn [fst snd] in *.
      split; [|exact IH2]. constructor; [|exact IH1].
      rewrite length_app in *. cbn [List.length] in *. lia.
    + rewrite Z.geb_leb in E. apply Z.leb_gt in E.
      apply IH; [exact Hs | exact E].
Qed.

Lemma flushes_concat size records : List.concat (flushes size records) = records.
Proof.
  unfold flushes. pose proof (batches_concat size records []) as H.
  destruct (batches size [] records) as [full left]. cbn in H.
  destruct left as [|x left]; [now rewrite app_nil_r in H|].
  rewrite concat_app. cbn. now rewrite app_nil_r.
Qed.

(** The flushed batches: none is empty or larger than the batch size, and
    all but the last have exactly the batch size. *)
Lemma flushes_sizes size records :
  1 <= size ->
  Forall (fun b => 1 <= Z.of_nat (List.length b) <= size) (flushes size records)
  /\ Forall (fun b => Z.of_nat (List.length b) = size)
       (removelast (flushes size records)).
Proof.
  intros Hs. unfold flushes.
  destruct (batches_sizes size records [] Hs) as [H1 H2]; [cbn; lia|].
  destruct (batches size [] records) as [full left]. cbn [fst snd] in *.
  assert (Hfull : Forall (fun b => 1 <= Z.of_nat (List.length b) <= size) full).
  { eapply Forall_impl; [|exact H1]. cbn. intros b Hb. lia. }
  destruct left as [|x left].
  - split; [exact Hfull|]. clear Hfull.
    induction H1 as [|b full Hb H1 IH]; [constructor|].
    cbn. destruct full; [constructor|]. constructor; [exact Hb | exact IH].
  - split.
    + apply Forall_app. split; [exact Hfull|]. constructor; [|constructor].
      cbn in *. lia.
    + rewrite removelast_last. exact H1.
Qed.

Lemma batches_fill size rs1 : forall batch rs2,
  rs1 <> [] ->
  Z.of_nat (List.length batch + List.length rs1) = size ->
  batches size batch (rs1 ++ rs2) =
  ((batch ++ rs1)%list :: fst (batches size [] rs2), snd (batches size [] rs2)).
Proof.
  induction rs1 as [|r rs1 IH]; intros batch rs2 Hne Hl; [contradiction|].
  cbn [app batches]. rewrite length_app. cbn [List.length] in *.
  destruct rs1 as [|r' rs1].
  - cbn [app List.length] in *.
    replace (Z.of_nat (List.length batch + 1) >=? size) with true
      by (symmetry; apply Z.geb_le; lia).
    destruct (batches size [] rs2) as [full left]. reflexivity.
  - replace (Z.of_nat (List.length batch + 1) >=? size) with false.
    + rewrite IH; [|discriminate|].
      * now rewrite <- app_assoc.
      * rewrite length_app. cbn [List.length] in *. lia.
    + symmetry. rewrite Z.geb_leb. apply Z.leb_gt. cbn [List.length] in Hl. lia.
Qed.

(** One record more than the batch size: a full batch, then a batch of
    one. *)
Lemma flushes_one_more size records :
  1 <= size -> Z.of_nat (List.length records) = size + 1 ->
  exists full last,
    records = (full ++ [last])%list
    /\ Z.of_nat (List.length full) = size
    /\ flushes size records = [full; [last]].
Proof.
  intros Hs Hl.
  destruct (exists_last (l := records)) as (full & last & ->).
  { intros ->. cbn in Hl. lia. }
  rewrite length_app in Hl. cbn in Hl.
  exists full, last. split; [reflexivity|]. split; [lia|].
  unfold flushes. rewrite (batches_fill size full [] [last]).
  - cbn [batches app List.length].
    destruct (Z.of_nat 1 >=? size); reflexivity.
  - intros ->. cbn in Hl. lia.
  - cbn. lia.
Qed.
(** ** A file and a directory, when the storage refuses nothing *)

Lemma ingest_file_spec (f : path) station_id lines w :
  file f = Lines lines ->
  none_refused (Ing.session w) (parsed_records station_id lines) ->
  _ingest_file f station_id w =
  (Ok tt,
   with_errors (parse_failures station_id lines)
     (with_flushed (flushes (Ing.batch_size w) (parsed_records station_id lines))
        (classified (parsed_records station_id lines) w))).
Proof.
  intros Hf Hn. unfold _ingest_file. rewrite Hf. unfold bind.
  rewrite ingest_lines_spec by exact Hn.
  pose proof (batches_concat (Ing.batch_size w) (parsed_records station_id lines) [])
    as Hc.
  unfold flushes.
  destruct (batches (Ing.batch_size w) [] (parsed_records station_id lines))
    as [full left]. cbn [fst snd app] in *.
  destruct left as [|x left].
  - rewrite app_nil_r in Hc. now rewrite Hc.
  - rewrite process_batch_spec.
    + f_equal. rewrite classified_with_flushed, classified_with_errors,
        classified_with_flushed, classified_app, Hc.
      now rewrite <- with_errors_with_flushed, with_flushed_app.
    + intros r Hr. apply Hn. rewrite <- Hc. apply in_or_app. now right.
Qed.

Lemma after_run_nil w : after_run [] w = w.
Proof.
  unfold after_run. cbn. rewrite classified_nil, with_flushed_nil, with_errors_0.
  unfold with_files_processed, set_stats.
  destruct w as [bs [fp ri rk er] db fl]. cbn. now rewrite Nat.add_0_r.
Qed.

Lemma after_run_readable f files w :
  file_readable f = true ->
  after_run (f :: files) w =
  after_run files
    (with_files_processed 1
       (with_errors (file_errors f)
          (with_flushed (flushes (Ing.batch_size w) (file_records f))
             (classified (file_records f) w)))).
Proof.
  intros Hf. unfold after_run, directory_records, directory_errors,
    directory_flushes. cbn [flat_map map list_sum fold_right filter List.length].
  rewrite Hf. cbn [List.length].
  rewrite <- classified_app.
  unfold with_files_processed, with_errors, with_flushed, set_stats, classified.
  cbn -[Nat.sub Nat.add accept newcomers]. f_equal.
  - f_equal; unfold list_sum; lia.
  - now rewrite app_assoc.
Qed.

Lemma after_run_unreadable f files w :
  file f = Unreadable ->
  after_run (f :: files) w = after_run files (with_errors 1 w).
Proof.
  intros Hf. unfold after_run, directory_records, directory_errors,
    directory_flushes, file_readable, file_records, file_errors.
  cbn [flat_map map list_sum fold_right filter List.length].
  rewrite Hf. cbn [app].
  unfold with_files_processed, with_errors, with_flushed, set_stats, classified.
  cbn -[Nat.sub Nat.add accept newcomers]. f_equal. f_equal; unfold list_sum; lia.
Qed.

Lemma ingest_files_spec files : forall w,
  none_refused (Ing.session w) (directory_records files) ->
  ingest_files files w = (Ok tt, after_run files w).
Proof.
  induction files as [|f files IH]; intros w Hn.
  - cbn. unfold ret. now rewrite after_run_nil.
  - cbn [ingest_files]. unfold directory_records in Hn. cbn [flat_map] in Hn.
    apply none_refused_app in Hn. destruct Hn as [Hf Hrest].
    unfold bind at 1, try_except, bind at 1.
    destruct (file f) as [|lines] eqn:Ef.
    + unfold _ingest_file. rewrite Ef. cbn [raise add_errors modify].
      rewrite IH by exact Hrest. now rewrite (after_run_unreadable f files w Ef).
    + unfold file_records in Hf. rewrite Ef in Hf.
      rewrite (ingest_file_spec f (stem f) lines w Ef Hf).
      cbn [add_files_processed modify].
      rewrite IH by exact Hrest. rewrite after_run_readable.
      * unfold file_records, file_errors. now rewrite Ef.
      * unfold file_readable. now rewrite Ef.
Qed.
(** ** The uniqueness invariant *)

Lemma same_station_date_sym a b :
  Session.same_station_date a b = Session.same_station_date b a.
Proof.
  unfold Session.same_station_date, Session.date_eqb.
  rewrite String.eqb_sym.
  now rewrite (Z.eqb_sym (Py.year _)), (Z.eqb_sym (Py.month _)), (Z.eqb_sym (Py.day _)).
Qed.

Lemma same_station_date_refl a : Session.same_station_date a a = true.
Proof.
  unfold Session.same_station_date, Session.date_eqb.
  now rewrite String.eqb_refl, !Z.eqb_refl.
Qed.

Lemma unique_snoc rows r :
  unique_station_date rows -> known rows r = false ->
  unique_station_date (rows ++ [r]).
Proof.
  induction rows as [|x rows IH]; cbn; intros H Hk.
  - auto.
  - destruct H as [Hx Hu]. apply orb_false_elim in Hk. destruct Hk as [Hrx Hk].
    split; [|now apply IH].
    rewrite known_app, Hx. cbn. now rewrite same_station_date_sym, Hrx.
Qed.

Lemma unique_one_row rows r :
  unique_station_date rows -> In r rows -> rows_with_key r rows = 1%nat.
Proof.
  unfold rows_with_key. induction rows as [|x rows IH]; cbn; [contradiction|].
  intros [Hx Hu] [-> | Hin].
  - rewrite same_station_date_refl. cbn. f_equal.
    unfold known in Hx. clear IH Hu.
    induction rows as [|y rows IH]; cbn in *; [reflexivity|].
    apply orb_false_elim in Hx. destruct Hx as [Hy Hx]. rewrite Hy. now apply IH.
  - destruct (Session.same_station_date r x) eqn:E; [|now apply IH].
    exfalso. unfold known in Hx.
    assert (existsb (Session.same_station_date x) rows = true); [|congruence].
    apply existsb_exists. exists r. split; [exact Hin|].
    now rewrite same_station_date_sym.
Qed.

Lemma grows_refl w : grows w w.
Proof.
  unfold grows. repeat split; auto. exists []. now rewrite app_nil_r.
Qed.

Lemma grows_trans w1 w2 w3 : grows w1 w2 -> grows w2 w3 -> grows w1 w3.
Proof.
  intros ((a1 & H1) & U1 & S1 & R1 & B1) ((a2 & H2) & U2 & S2 & R2 & B2).
  unfold grows. repeat split; try congruence; auto.
  exists (a1 ++ a2)%list. now rewrite H2, H1, app_assoc.
Qed.

Lemma growing_ret {A} (a : A) : growing (ret a).
Proof. intros w. apply grows_refl. Qed.

Lemma growing_raise {A} e : growing (@raise Ing.t A e).
Proof. intros w. apply grows_refl. Qed.

Lemma growing_bind {A B} (m : M Ing.t A) (k : A -> M Ing.t B) :
  growing m -> (forall a, growing (k a)) -> growing (bind m k).
Proof.
  intros Hm Hk w. unfold bind. specialize (Hm w).
  destruct (m w) as [[a|e] w1]; cbn in *; [|exact Hm].
  eapply grows_trans; [exact Hm | apply Hk].
Qed.

Lemma growing_try_except {A} (body : M Ing.t A) handler :
  growing body -> (forall e, growing (handler e)) ->
  growing (try_except body handler).
Proof.
  intros Hb Hh w. unfold try_except. specialize (Hb w).
  destruct (body w) as [[a|e] w1]; cbn in *; [exact Hb|].
  eapply grows_trans; [exact Hb | apply Hh].
Qed.

Lemma grows_same_session w w' :
  Ing.session w' = Ing.session w -> Ing.batch_size w' = Ing.batch_size w ->
  grows w w'.
Proof.
  intros Hs Hb. unfold grows. rewrite Hs. repeat split; auto.
  exists []. now rewrite app_nil_r.
Qed.

Lemma growing_set_stats f : growing (modify (set_stats f)).
Proof. intros w. now apply grows_same_session. Qed.

Lemma growing_trace_flush batch : growing (trace_flush batch).
Proof. intros w. now apply grows_same_session. Qed.

Lemma insert_grows db r db' :
  Session.insert db r = inr db' ->
  (exists added, Session.weather_data db' = (Session.weather_data db ++ added)%list)
  /\ (unique_station_date (Session.weather_data db) ->
      unique_station_date (Session.weather_data db'))
  /\ Session.weather_stats db' = Session.weather_stats db
  /\ Session.refuses db' = Session.refuses db.
Proof.
  unfold Session.insert. destruct (Session.refuses db r); [discriminate|].
  destruct (existsb _ _) eqn:Ek; [discriminate|]. intros [= <-]. cbn.
  repeat split; [eauto|].
  intros Hu. apply unique_snoc; [exact Hu|]. exact Ek.
Qed.

Lemma insert_all_grows rs : forall db db',
  Session.insert_all db rs = inr db' ->
  (exists added, Session.weather_data db' = (Session.weather_data db ++ added)%list)
  /\ (unique_station_date (Session.weather_data db) ->
      unique_station_date (Session.weather_data db'))
  /\ Session.weather_stats db' = Session.weather_stats db
  /\ Session.refuses db' = Session.refuses db.
Proof.
  induction rs as [|r rs IH]; intros db db'; cbn [Session.insert_all].
  - intros [= <-]. repeat split; auto. exists []. now rewrite app_nil_r.
  - destruct (Session.insert db r) as [e|db1] eqn:E; [discriminate|].
    intros H. apply IH in H. apply insert_grows in E.
    destruct E as ((a1 & H1) & U1 & S1 & R1), H as ((a2 & H2) & U2 & S2 & R2).
    repeat split; try congruence; auto.
    exists (a1 ++ a2)%list. now rewrite H2, H1, app_assoc.
Qed.

Lemma growing_add_and_commit record : growing (add_and_commit record).
Proof.
  intros w. unfold add_and_commit.
  destruct (Session.insert (Ing.session w) record) as [e|db] eqn:E;
    [apply grows_refl|].
  apply insert_grows in E. destruct E as (H1 & U1 & S1 & R1).
  unfold grows. cbn. auto.
Qed.

Lemma growing_bulk_save_and_commit batch : growing (bulk_save_and_commit batch).
Proof.
  intros w. unfold bulk_save_and_commit.
  destruct (Session.insert_all (Ing.session w) batch) as [e|db] eqn:E;
    [apply grows_refl|].
  apply insert_all_grows in E. destruct E as (H1 & U1 & S1 & R1).
  unfold grows. cbn. auto.
Qed.

Create HintDb growing.
#[local] Hint Resolve growing_ret growing_raise growing_set_stats
  growing_trace_flush growing_add_and_commit growing_bulk_save_and_commit
  : growing.

Lemma growing_process_individually batch : growing (_process_individually batch).
Proof.
  induction batch as [|r rest IH]; cbn [_process_individually].
  - apply growing_ret.
  - unfold add_records_ingested, add_records_skipped, rollback.
    repeat first [ apply growing_bind; [|intros ?]
                 | apply growing_try_except; [|intros []]
                 | solve [eauto with growing]
                 | apply growing_set_stats ].
Qed.

Lemma growing_process_batch batch : growing (_process_batch batch).
Proof.
  unfold _process_batch, add_records_ingested, rollback.
  pose proof (growing_process_individually batch).
  repeat first [ apply growing_bind; [|intros ?]
                 | apply growing_try_except; [|intros []]
                 | solve [eauto with growing]
                 | apply growing_set_stats ].
Qed.

Lemma growing_ingest_lines station_id lines : forall batch,
  growing (ingest_lines station_id lines batch).
Proof.
  induction lines as [|raw rest IH]; intros batch; cbn [ingest_lines].
  - apply growing_ret.
  - destruct (Py.strip raw) as [|c line]; [apply IH|].
    destruct (_parse_line (String c line) station_id) as [e|record].
    + unfold add_errors. apply growing_bind; [apply growing_set_stats|].
      intros _. apply IH.
    + intros w.
      destruct (Z.of_nat (List.length (batch ++ [record])) >=? Ing.batch_size w);
        [|apply IH].
      pose proof (growing_process_batch (batch ++ [record]) w) as Hp.
      destruct (_process_batch (batch ++ [record]) w) as [[u|e] w1]; cbn in Hp.
      * eapply grows_trans; [exact Hp | apply IH].
      * eapply grows_trans; [exact Hp|].
        apply (growing_bind (add_errors 1)); [apply growing_set_stats|].
        intros _. apply IH.
Qed.

Lemma growing_ingest_file f station_id : growing (_ingest_file f station_id).
Proof.
  unfold _ingest_file. destruct (file f) as [|lines]; [apply growing_raise|].
  apply growing_bind; [apply growing_ingest_lines|].
  intros [|x batch]; [apply growing_ret | apply growing_process_batch].
Qed.

Lemma growing_ingest_files files : growing (ingest_files files).
Proof.
  induction files as [|f files IH]; cbn [ingest_files]; [apply growing_ret|].
  unfold add_files_processed, add_errors.
  apply growing_bind; [|intros _; exact IH].
  apply growing_try_except; [|intros e; apply growing_set_stats].
  apply growing_bind; [apply growing_ingest_file | intros _; apply growing_set_stats].
Qed.

Lemma growing_ingest_from_directory fs data_directory :
  growing (ingest_from_directory fs data_directory).
Proof.
  unfold ingest_from_directory. destruct (fs data_directory) as [files|];
    [|apply growing_raise].
  apply growing_bind; [apply growing_ingest_files|].
  intros _ w. apply grows_refl.
Qed.
(** ** The batch loader *)

(** C1 as stated fails: the bulk insert of [mixed_batch] fails on the
    uniqueness constraint, the retry skips the repeated day and then meets
    the record the storage refuses; that failure leaves the loader
    uncounted, and the new day after it, which the storage would take, is
    never attempted. *)
Lemma process_batch_abandons_the_rest :
  let w := Ing.__init__ 1000 one_day_db in
  let w' := snd (_process_batch mixed_batch w) in
  Session.insert_all one_day_db mixed_batch = inl IntegrityError
  /\ fst (_process_batch mixed_batch w) = Raise OtherStorageError
  /\ Ing.errors (Ing.stats w') = 0%nat
  /\ Ing.records_skipped (Ing.stats w') = 1%nat
  /\ Ing.records_ingested (Ing.stats w') = 0%nat
  /\ Session.refuses one_day_db (day_record "S1" 2023 1 3 5 5 5) = false
  /\ Session.weather_data (Ing.session w') = Session.weather_data one_day_db.
Proof. vm_compute. repeat split. Qed.

(** C1, amended. When the bulk insert of a batch fails on the uniqueness
    constraint, nothing of it stays and the records are retried in order,
    one transaction each: a record that brings a new (station, date) pair
    is inserted and counted as ingested, a record whose pair is there
    already is counted as skipped and not as an error. The retry goes on
    up to the first record the storage refuses for another reason: that
    failure is raised to the caller, the loader counts no error for it and
    attempts no later record. When the storage refuses no record, the whole
    batch is classified and the loader returns. *)
Theorem process_batch_fallback (batch : list WeatherData.t) (w : Ing.t) :
  Session.insert_all (Ing.session w) batch = inl IntegrityError ->
  let db := Ing.session w in
  let done := until_refused (Session.refuses db) batch in
  let new := newcomers (Session.weather_data db) done in
  let w' := snd (_process_batch batch w) in
  fst (_process_batch batch w)
    = (if Nat.eqb (List.length done) (List.length batch)
       then Ok tt else Raise OtherStorageError)
  /\ Session.weather_data (Ing.session w')
     = (Session.weather_data db ++ stamp_from (Session.clock db) new)%list
  /\ Ing.records_ingested (Ing.stats w')
     = (Ing.records_ingested (Ing.stats w) + List.length new)%nat
  /\ Ing.records_skipped (Ing.stats w')
     = (Ing.records_skipped (Ing.stats w)
        + (List.length done - List.length new))%nat
  /\ Ing.errors (Ing.stats w') = Ing.errors (Ing.stats w)
  /\ (none_refused db batch -> done = batch).
Proof.
  intros H. cbv zeta. rewrite (retry_after_integrity_error batch w H). cbv zeta.
  cbn [fst snd]. repeat split.
  intros Hn. now apply until_refused_all.
Qed.

(** C1 on a batch of the same day twice and a new day: one skipped, one
    ingested, no error. *)
Lemma process_batch_fallback_example :
  let batch := [ day_record "S1" 2023 1 1 1 1 1; day_record "S1" 2023 1 3 5 5 5 ] in
  let w' := snd (_process_batch batch (Ing.__init__ 1000 one_day_db)) in
  fst (_process_batch batch (Ing.__init__ 1000 one_day_db)) = Ok tt
  /\ Session.weather_data (Ing.session w')
     = (Session.weather_data one_day_db
        ++ [Session.stamp 1 (day_record "S1" 2023 1 3 5 5 5)])%list
  /\ Ing.records_ingested (Ing.stats w') = 1%nat
  /\ Ing.records_skipped (Ing.stats w') = 1%nat
  /\ Ing.errors (Ing.stats w') = 0%nat.
Proof.
  pose proof (process_batch_fallback
    [ day_record "S1" 2023 1 1 1 1 1; day_record "S1" 2023 1 3 5 5 5 ]
    (Ing.__init__ 1000 one_day_db) eq_refl) as H.
  cbv zeta in *. destruct H as (H1 & H2 & H3 & H4 & H5 & _).
  repeat split; assumption.
Defined.
(** ** Duplicates *)

Lemma newcomers_all_known rs : forall rows,
  (forall r, In r rs -> known rows r = true) -> newcomers rows rs = [].
Proof.
  induction rs as [|r rs IH]; intros rows H; cbn; [reflexivity|].
  rewrite (H r (or_introl eq_refl)). apply IH. intros x Hx. apply H. now right.
Qed.

Lemma known_after_newcomers rs : forall rows r,
  In r rs -> known (rows ++ newcomers rows rs) r = true.
Proof.
  induction rs as [|x rs IH]; intros rows r Hin; [contradiction|].
  cbn [newcomers]. destruct Hin as [-> | Hin].
  - destruct (known rows r) eqn:Ek.
    + rewrite known_app, Ek. reflexivity.
    + rewrite known_app. unfold known at 2. cbn.
      rewrite same_station_date_refl. cbn. apply orb_true_r.
  - destruct (known rows x) eqn:Ek; [now apply IH|].
    change (x :: newcomers (rows ++ [x]) rs)
      with ([x] ++ newcomers (rows ++ [x]) rs)%list.
    rewrite app_assoc. now apply IH.
Qed.

Lemma known_after_accept rs db r :
  In r rs -> known (Session.weather_data (accept rs db)) r = true.
Proof.
  intros Hin. rewrite weather_data_accept, known_app, known_stamp_from,
    <- known_app. now apply known_after_newcomers.
Qed.

Lemma classified_all_known rs w :
  (forall r, In r rs -> known (Session.weather_data (Ing.session w)) r = true) ->
  classified rs w = with_records_skipped (List.length rs) w.
Proof.
  intros H. unfold classified, accept. rewrite (newcomers_all_known rs _ H).
  destruct w as [bs [fp ri rk er] [wd ws ck rf] fl].
  unfold with_records_skipped, set_stats.
  cbn -[Nat.sub]. rewrite app_nil_r, !Nat.add_0_r, Nat.sub_0_r. reflexivity.
Qed.

Lemma ingestion_runs_grow runs : forall db,
  (exists added,
     Session.weather_data (ingestion_runs runs db)
     = (Session.weather_data db ++ added)%list)
  /\ (unique_station_date (Session.weather_data db) ->
      unique_station_date (Session.weather_data (ingestion_runs runs db))).
Proof.
  induction runs as [|[[size fs] dir] runs IH]; intros db; cbn [ingestion_runs].
  - split; [|auto]. exists []. now rewrite app_nil_r.
  - destruct (growing_ingest_from_directory fs dir (Ing.__init__ size db))
      as ((a1 & H1) & U1 & _).
    destruct (IH (Ing.session
                    (snd (ingest_from_directory fs dir (Ing.__init__ size db)))))
      as ((a2 & H2) & U2).
    cbn in H1, U1. split; [|auto].
    exists (a1 ++ a2)%list. now rewrite H2, H1, app_assoc.
Qed.

(** C3. The rows of the daily table never come to share a (station, date)
    pair: every ingestion run, every flushed batch and every sequence of
    runs keeps the pairs distinct and keeps each row that was there, as it
    was, before the rows it adds; a (station, date) pair that is present is
    held by exactly one row. A record whose pair is already stored is
    counted as skipped and changes nothing; a batch of two records of the
    same new pair ingests the first and skips the second; and a second run
    over the same files ingests nothing, skips every record and leaves the
    storage as the first run left it. *)
Theorem station_date_stays_unique :
  (forall fs data_directory w,
     let w' := snd (ingest_from_directory fs data_directory w) in
     (unique_station_date (Session.weather_data (Ing.session w)) ->
      unique_station_date (Session.weather_data (Ing.session w')))
     /\ exists added,
          Session.weather_data (Ing.session w')
          = (Session.weather_data (Ing.session w) ++ added)%list)
  /\ (forall batch w,
        let w' := snd (_process_batch batch w) in
        (unique_station_date (Session.weather_data (Ing.session w)) ->
         unique_station_date (Session.weather_data (Ing.session w')))
        /\ exists added,
             Session.weather_data (Ing.session w')
             = (Session.weather_data (Ing.session w) ++ added)%list)
  /\ (forall runs db,
        (unique_station_date (Session.weather_data db) ->
         unique_station_date (Session.weather_data (ingestion_runs runs db)))
        /\ exists added,
             Session.weather_data (ingestion_runs runs db)
             = (Session.weather_data db ++ added)%list)
  /\ (forall rows r,
        unique_station_date rows -> In r rows -> rows_with_key r rows = 1%nat)
  /\ (forall w second,
        known (Session.weather_data (Ing.session w)) second = true ->
        Session.refuses (Ing.session w) second = false ->
        _process_batch [second] w
        = (Ok tt, with_records_skipped 1 (with_flushed [[second]] w)))
  /\ (forall w first second,
        known (Session.weather_data (Ing.session w)) first = false ->
        Session.same_station_date second first = true ->
        Session.refuses (Ing.session w) first = false ->
        Session.refuses (Ing.session w) second = false ->
        let w' := snd (_process_batch [first; second] w) in
        Session.weather_data (Ing.session w')
        = (Session.weather_data (Ing.session w)
           ++ [Session.stamp (Session.clock (Ing.session w)) first])%list
        /\ Ing.records_ingested (Ing.stats w')
           = (Ing.records_ingested (Ing.stats w) + 1)%nat
        /\ Ing.records_skipped (Ing.stats w')
           = (Ing.records_skipped (Ing.stats w) + 1)%nat)
  /\ (forall fs data_directory files w,
        fs data_directory = Some files ->
        none_refused (Ing.session w) (directory_records files) ->
        let w1 := snd (ingest_from_directory fs data_directory w) in
        let w2 := snd (ingest_from_directory fs data_directory w1) in
        Ing.session w2 = Ing.session w1
        /\ Ing.records_ingested (Ing.stats w2) = Ing.records_ingested (Ing.stats w1)
        /\ Ing.records_skipped (Ing.stats w2)
           = (Ing.records_skipped (Ing.stats w1)
              + List.length (directory_records files))%nat).
Proof.
  split; [|split; [|split; [|split; [|split; [|split]]]]].
  - intros fs dir w.
    destruct (growing_ingest_from_directory fs dir w) as (H & U & _). now split.
  - intros batch w.
    destruct (growing_process_batch batch w) as (H & U & _). now split.
  - intros runs db. destruct (ingestion_runs_grow runs db) as [H U]. now split.
  - exact unique_one_row.
  - intros w second Hk Hr. rewrite process_batch_spec.
    + rewrite classified_all_known; [reflexivity|].
      intros r [<- | []]. exact Hk.
    + intros r [<- | []]. exact Hr.
  - intros w first second Hk Hs Hr1 Hr2. cbv zeta. rewrite process_batch_spec.
    + cbn [snd]. unfold classified, accept.
      cbn [with_flushed Ing.session Ing.stats Ing.records_ingested
           Ing.records_skipped newcomers].
      rewrite Hk, known_app.
      replace (known [first] second) with true
        by (unfold known; cbn; now rewrite Hs).
      rewrite orb_true_r. cbn. repeat split.
    + intros r [<- | [<- | []]]; assumption.
  - intros fs dir files w Hfs Hn. cbv zeta. unfold ingest_from_directory.
    rewrite Hfs. unfold bind.
    rewrite (ingest_files_spec files w Hn). cbn [snd].
    assert (Hn1 : none_refused (Ing.session (after_run files w))
                    (directory_records files)) by exact Hn.
    rewrite (ingest_files_spec files _ Hn1). cbn [snd].
    assert (Hk : forall r, In r (directory_records files) ->
              known (Session.weather_data (Ing.session (after_run files w))) r = true).
    { intros r Hr. unfold after_run. cbn [with_files_processed with_errors
        with_flushed set_stats Ing.session classified].
      now apply known_after_accept. }
    set (w1 := after_run files w) in *.
    unfold after_run. rewrite (classified_all_known _ w1 Hk).
    cbn. repeat split.
Qed.

(** C3 on the example directory, ingested twice into an empty storage. *)
Lemma rerun_skips_every_record :
  let w1 := snd (ingest_from_directory example_fs "wx_data" (Ing.__init__ 2 empty_db)) in
  let w2 := snd (ingest_from_directory example_fs "wx_data" w1) in
  unique_station_date (Session.weather_data (Ing.session w2))
  /\ Ing.session w2 = Ing.session w1
  /\ Ing.records_ingested (Ing.stats w2) = 3%nat
  /\ Ing.records_skipped (Ing.stats w2) = 5%nat.
Proof.
  destruct station_date_stays_unique as (H1 & _ & _ & _ & _ & _ & H7).
  cbv zeta. split.
  - apply (H1 example_fs "wx_data"%string _).
    apply (H1 example_fs "wx_data"%string (Ing.__init__ 2 empty_db)).
    exact I.
  - assert (Hn : none_refused (Ing.session (Ing.__init__ 2 empty_db))
                   (directory_records example_files)).
    { intros r Hr. vm_compute in Hr.
      repeat (destruct Hr as [<- | Hr]; [reflexivity|]). contradiction. }
    destruct (H7 example_fs "wx_data"%string example_files
                (Ing.__init__ 2 empty_db) eq_refl Hn) as (Hs & Hi & Hk).
    cbv zeta in *. split; [exact Hs|]. split.
    + rewrite Hi. reflexivity.
    + rewrite Hk. reflexivity.
Defined.
(** ** Batching *)

(** C7, amended. With a batch size of at least one and a storage that
    refuses no record of the file, so that no flush raises, reading a file
    hands the loader the parsed records in batches: the batches flushed, in order, put end to end are exactly
    the parsed records, so each record is in one batch and in one only;
    every batch but the last has exactly the batch size, flushed when it
    fills, and the last, flushed at the end of the file, has between one
    record and the batch size. With one record more than the batch size
    there are exactly two batches, a full one and one of a single record.
    The default batch size is 1000. *)
Theorem file_is_flushed_in_batches (f : path) (station_id : string)
    (lines : list string) (w : Ing.t) :
  1 <= Ing.batch_size w ->
  file f = Lines lines ->
  none_refused (Ing.session w) (parsed_records station_id lines) ->
  let records := parsed_records station_id lines in
  let size := Ing.batch_size w in
  let flushed := flushes size records in
  fst (_ingest_file f station_id w) = Ok tt
  /\ Ing.flushed (snd (_ingest_file f station_id w)) = (Ing.flushed w ++ flushed)%list
  /\ List.concat flushed = records
  /\ Forall (fun batch => 1 <= Z.of_nat (List.length batch) <= size) flushed
  /\ Forall (fun batch => Z.of_nat (List.length batch) = size) (removelast flushed)
  /\ (Z.of_nat (List.length records) = size + 1 ->
      exists full last,
        records = (full ++ [last])%list
        /\ Z.of_nat (List.length full) = size
        /\ flushed = [full; [last]])
  /\ (forall fs data_directory db,
        Ing.batch_size (snd (run_ingestion fs data_directory db)) = 1000).
Proof.
  intros Hs Hf Hn. cbv zeta. rewrite (ingest_file_spec f station_id lines w Hf Hn).
  cbn [fst snd]. split; [reflexivity|]. split; [reflexivity|].
  split; [apply flushes_concat|].
  destruct (flushes_sizes (Ing.batch_size w) (parsed_records station_id lines) Hs)
    as [H1 H2].
  split; [exact H1|]. split; [exact H2|]. split.
  - intros Hl. now apply flushes_one_more.
  - intros fs dir db. unfold run_ingestion.
    now destruct (growing_ingest_from_directory fs dir (Ing.__init__ 1000 db))
      as (_ & _ & _ & _ & ->).
Qed.

(** C7 with a batch size of two and a file of three days: a batch of two,
    then a batch of one. *)
Lemma three_lines_two_batches :
  let w := Ing.__init__ 2 empty_db in
  let f := Path "S1" (Lines three_days) in
  fst (_ingest_file f "S1" w) = Ok tt
  /\ Ing.flushed (snd (_ingest_file f "S1" w))
     = [ [ day_record "S1" 2023 1 1 100 (-50) 25; day_record "S1" 2023 1 2 150 0 0 ];
         [ day_record "S1" 2023 1 3 (-9999) (-100) 50 ] ].
Proof.
  assert (Hn : none_refused (Ing.session (Ing.__init__ 2 empty_db))
                 (parsed_records "S1" three_days)).
  { intros r Hr. vm_compute in Hr.
    repeat (destruct Hr as [<- | Hr]; [reflexivity|]). contradiction. }
  destruct (file_is_flushed_in_batches (Path "S1" (Lines three_days)) "S1"
              three_days (Ing.__init__ 2 empty_db) ltac:(cbn; lia) eq_refl Hn)
    as (H1 & H2 & _).
  cbv zeta. split; [exact H1|]. rewrite H2. reflexivity.
Defined.

(** C7 as stated fails. With a batch size of two and three parseable
    lines, the second of them refused by the storage, the flush of the
    first two records raises inside the loop, so the batch is not emptied:
    it is flushed again with the third record, and once more at the end of
    the file. Three batches are flushed, of two, three and three records,
    the first record is in all three, and no record reaches the table.
    With a batch size of zero and a file of one line, one batch is
    flushed, not two, and it is larger than the batch size. *)
Lemma failed_flush_keeps_the_batch :
  let r1 := day_record "S1" 2023 1 1 100 (-50) 25 in
  let r2 := day_record "S1" 2023 1 2 (10 ^ 20) 0 0 in
  let r3 := day_record "S1" 2023 1 3 (-9999) (-100) 50 in
  let f := Path "S1" (Lines refused_second_day) in
  let w := snd (_ingest_file f "S1" (Ing.__init__ 2 empty_db)) in
  let g := Path "S1" (Lines [tab_joined "20230101" "100" "-50" "25"]) in
  let v := snd (_ingest_file g "S1" (Ing.__init__ 0 empty_db)) in
  parsed_records "S1" refused_second_day = [r1; r2; r3]
  /\ fst (_ingest_file f "S1" (Ing.__init__ 2 empty_db)) = Raise OtherStorageError
  /\ Ing.flushed w = [[r1; r2]; [r1; r2; r3]; [r1; r2; r3]]
  /\ Ing.flushed w <> flushes 2 [r1; r2; r3]
  /\ Session.weather_data (Ing.session w) = []
  /\ Ing.records_ingested (Ing.stats w) = 0%nat
  /\ Ing.errors (Ing.stats w) = 2%nat
  /\ fst (_ingest_file g "S1" (Ing.__init__ 0 empty_db)) = Ok tt
  /\ Ing.flushed v = [[r1]].
Proof.
  cbv zeta. repeat split; try (vm_compute; reflexivity).
  vm_compute. discriminate.
Qed.

(** ** The run *)

Lemma ingest_files_returns files : forall w, fst (ingest_files files w) = Ok tt.
Proof.
  induction files as [|f files IH]; intros w; cbn [ingest_files]; [reflexivity|].
  unfold bind at 1, try_except.
  destruct (bind (_ingest_file f (stem f)) (fun _ => add_files_processed 1) w)
    as [[u|e] w1]; apply IH.
Qed.

(** C8. A run raises exactly when the directory does not exist; what it
    raises then is the directory-not-found error, before any file is read
    and with the state untouched. Every other failure is counted as one
    error and the run goes on: a line that does not parse, with the next
    line; a batch whose flush raises inside a file, with the next line; a
    file whose reading or last flush raises, with the next file. When the
    storage refuses nothing, the run adds to the error counter the lines
    that do not parse and the files that cannot be read. *)
Theorem run_fails_only_without_directory (fs : file_system)
    (data_directory : string) (w : Ing.t) :
  ((exists e, fst (ingest_from_directory fs data_directory w) = Raise e)
   <-> fs data_directory = None)
  /\ (fs data_directory = None ->
      ingest_from_directory fs data_directory w = (Raise FileNotFoundError, w))
  /\ (forall files, fs data_directory = Some files ->
      exists w', ingest_from_directory fs data_directory w = (Ok (Ing.stats w'), w'))
  /\ (forall station_id raw rest batch w0 e,
        Py.strip raw <> EmptyString ->
        _parse_line (Py.strip raw) station_id = inl e ->
        ingest_lines station_id (raw :: rest) batch w0
        = ingest_lines station_id rest batch (with_errors 1 w0))
  /\ (forall station_id raw rest batch record w0 e w1,
        Py.strip raw <> EmptyString ->
        _parse_line (Py.strip raw) station_id = inr record ->
        Ing.batch_size w0 <= Z.of_nat (List.length (batch ++ [record])) ->
        _process_batch (batch ++ [record]) w0 = (Raise e, w1) ->
        ingest_lines station_id (raw :: rest) batch w0
        = ingest_lines station_id rest (batch ++ [record]) (with_errors 1 w1))
  /\ (forall f rest w0 e w1,
        _ingest_file f (stem f) w0 = (Raise e, w1) ->
        ingest_files (f :: rest) w0 = ingest_files rest (with_errors 1 w1))
  /\ (forall f station_id w0,
        file f = Unreadable -> _ingest_file f station_id w0 = (Raise OSError, w0))
  /\ (forall files,
        fs data_directory = Some files ->
        none_refused (Ing.session w) (directory_records files) ->
        Ing.errors (Ing.stats (snd (ingest_from_directory fs data_directory w)))
        = (Ing.errors (Ing.stats w) + directory_errors files)%nat).
Proof.
  split; [|split; [|split; [|split; [|split; [|split; [|split]]]]]].
  - unfold ingest_from_directory. destruct (fs data_directory) as [files|].
    + unfold bind. pose proof (ingest_files_returns files w) as H.
      destruct (ingest_files files w) as [[u|e] w1]; cbn in *.
      * split; [intros [e He]; discriminate | discriminate].
      * discriminate.
    + split; [reflexivity|]. intros _. now exists FileNotFoundError.
  - intros H. unfold ingest_from_directory. now rewrite H.
  - intros files H. unfold ingest_from_directory. rewrite H. unfold bind.
    pose proof (ingest_files_returns files w) as Hr.
    destruct (ingest_files files w) as [[u|e] w1]; cbn in *; [eauto | discriminate].
  - intros station_id raw rest batch w0 e Hne Hp. cbn [ingest_lines].
    destruct (Py.strip raw) as [|c line]; [contradiction|]. now rewrite Hp.
  - intros station_id raw rest batch record w0 e w1 Hne Hp Hb Hf.
    cbn [ingest_lines]. destruct (Py.strip raw) as [|c line]; [contradiction|].
    rewrite Hp.
    replace (Z.of_nat (List.length (batch ++ [record])) >=? Ing.batch_size w0)
      with true by (symmetry; apply Z.geb_le; exact Hb).
    now rewrite Hf.
  - intros f rest w0 e w1 H. cbn [ingest_files].
    unfold bind at 1, try_except, bind at 1. now rewrite H.
  - intros f station_id w0 H. unfold _ingest_file. now rewrite H.
  - intros files Hfs Hn. unfold ingest_from_directory. rewrite Hfs. unfold bind.
    now rewrite (ingest_files_spec files w Hn).
Qed.

(** C8 on the example directory: the run returns with two errors, the
    line that does not parse and the file that cannot be read; under
    another directory name it raises with nothing done. *)
Lemma example_run_counts_two_errors :
  fst (ingest_from_directory example_fs "wx_data" (Ing.__init__ 2 empty_db))
  = Ok (Ing.MakeStats 1 3 1 2)
  /\ ingest_from_directory example_fs "elsewhere" (Ing.__init__ 2 empty_db)
     = (Raise FileNotFoundError, Ing.__init__ 2 empty_db).
Proof.
  split.
  - destruct (run_fails_only_without_directory example_fs "wx_data"
                (Ing.__init__ 2 empty_db)) as (_ & _ & H & _).
    destruct (H example_files eq_refl) as [w' Hw]. rewrite Hw. cbn [fst].
    f_equal. change (Ing.stats w') with (Ing.stats (snd (Ok (Ing.stats w'), w'))).
    rewrite <- Hw. reflexivity.
  - destruct (run_fails_only_without_directory example_fs "elsewhere"
                (Ing.__init__ 2 empty_db)) as (_ & H & _).
    exact (H eq_refl).
Defined.
(** ** One summary *)

Lemma column_without_missing_present column query :
  column_without_missing column query = present (map column query).
Proof.
  unfold column_without_missing, present.
  induction query as [|r query IH]; cbn; [reflexivity|].
  destruct (column r =? MISSING); cbn; now rewrite IH.
Qed.

Lemma find_none_existsb {A} (p : A -> bool) l :
  find p l = None -> existsb p l = false.
Proof.
  induction l as [|x l IH]; cbn; [reflexivity|].
  destruct (p x); [discriminate | exact IH].
Qed.

(** [_calculate_station_year_stats] never raises, and what it leaves is
    [upserted]. *)
Lemma calculate_station_year_spec station_id year w :
  _calculate_station_year_stats station_id year w
  = (Ok tt, Calc.Make (Calc.stats w) (upserted station_id year (Calc.session w))).
Proof.
  unfold _calculate_station_year_stats, upserted, mean_of_tenths,
    total_of_hundredths.
  rewrite !column_without_missing_present.
  destruct (first_stat (Calc.session w) station_id year) as [row|] eqn:E.
  - unfold commit_update.
    destruct (present (map WeatherData.max_temp _));
      destruct (present (map WeatherData.min_temp _));
      destruct (present (map WeatherData.precipitation _)); reflexivity.
  - unfold commit_new. unfold first_stat in E.
    rewrite (find_none_existsb _ _ E).
    destruct (present (map WeatherData.max_temp _));
      destruct (present (map WeatherData.min_temp _));
      destruct (present (map WeatherData.precipitation _)); reflexivity.
Qed.

Lemma weather_data_upserted station_id year db :
  Session.weather_data (upserted station_id year db) = Session.weather_data db.
Proof. unfold upserted. now destruct (first_stat db station_id year). Qed.

Lemma station_year_query_upserted s y db s' y' :
  station_year_query (upserted s y db) s' y' = station_year_query db s' y'.
Proof. unfold station_year_query. now rewrite weather_data_upserted. Qed.

Lemma stats_key_overwrite s y a b c now row :
  stats_key s y (overwrite a b c now row) = stats_key s y row.
Proof. reflexivity. Qed.

Lemma find_update_first_same p f rows row :
  find p rows = Some row -> p (f row) = true ->
  find p (update_first p f rows) = Some (f row).
Proof.
  induction rows as [|x rows IH]; cbn; [discriminate|].
  destruct (p x) eqn:E.
  - intros [= ->] Hf. cbn. now rewrite Hf.
  - intros H Hf. cbn. rewrite E. now apply IH.
Qed.

Lemma find_snoc_new {A} (p : A -> bool) rows x :
  find p rows = None -> p x = true -> find p (rows ++ [x]) = Some x.
Proof.
  induction rows as [|y rows IH]; cbn; intros H Hx; [now rewrite Hx|].
  destruct (p y); [discriminate | now apply IH].
Qed.

Lemma stats_key_refl s y a b c t u :
  stats_key s y (WeatherStats.Make s y a b c t u) = true.
Proof. unfold stats_key. cbn. now rewrite String.eqb_refl, Z.eqb_refl. Qed.

Lemma summarised_upserted s y db : summarised (upserted s y db) (s, y).
Proof.
  unfold summarised. cbn [fst snd]. rewrite station_year_query_upserted.
  unfold upserted, first_stat.
  destruct (find (stats_key s y) (Session.weather_stats db)) as [row|] eqn:E;
    cbn [Session.weather_stats].
  - eexists. split.
    + apply find_update_first_same; [exact E|].
      rewrite stats_key_overwrite. now apply find_some in E.
    + cbn. repeat split.
  - eexists. split.
    + apply find_snoc_new; [exact E | apply stats_key_refl].
    + cbn. repeat split.
Qed.

Lemma stats_key_both s y s' y' row :
  stats_key s y row = true -> stats_key s' y' row = true -> (s, y) = (s', y').
Proof.
  unfold stats_key. intros H H'.
  apply andb_prop in H, H'. destruct H as [Hs Hy], H' as [Hs' Hy'].
  apply String.eqb_eq in Hs, Hs'. apply Z.eqb_eq in Hy, Hy'. congruence.
Qed.

(** The first row of another group is not touched. *)
Lemma first_stat_upserted_other s y db s' y' :
  (s, y) <> (s', y') ->
  first_stat (upserted s y db) s' y' = first_stat db s' y'.
Proof.
  intros Hne. unfold upserted, first_stat.
  destruct (find (stats_key s y) (Session.weather_stats db)) as [row|] eqn:E;
    cbn [Session.weather_stats].
  - clear E. induction (Session.weather_stats db) as [|x rows IH]; cbn; [reflexivity|].
    destruct (stats_key s y x) eqn:Ex; cbn.
    + rewrite stats_key_overwrite.
      destruct (stats_key s' y' x) eqn:Ex'; [|reflexivity].
      exfalso. apply Hne. eapply stats_key_both; eassumption.
    + destruct (stats_key s' y' x); [reflexivity | exact IH].
  - assert (Hn : stats_key s' y'
             (WeatherStats.Make s y
                (mean_of_tenths (map WeatherData.max_temp (station_year_query db s y)))
                (mean_of_tenths (map WeatherData.min_temp (station_year_query db s y)))
                (total_of_hundredths
                   (map WeatherData.precipitation (station_year_query db s y)))
                (Some (Session.clock db)) (Some (S (Session.clock db)))) = false).
    { destruct (stats_key s' y' _) eqn:Ex; [|reflexivity].
      exfalso. apply Hne. eapply stats_key_both; [apply stats_key_refl | exact Ex]. }
    clear E. induction (Session.weather_stats db) as [|x rows IH]; cbn.
    + now rewrite Hn.
    + destruct (stats_key s' y' x); [reflexivity | exact IH].
Qed.

Lemma summarised_kept s y db key :
  summarised db key -> summarised (upserted s y db) key.
Proof.
  destruct key as [s' y']. intros H.
  destruct (station_year_eq_dec (s, y) (s', y')) as [[= <- <-] | Hne].
  - apply summarised_upserted.
  - unfold summarised in *. cbn [fst snd] in *.
    rewrite station_year_query_upserted, first_stat_upserted_other by exact Hne.
    exact H.
Qed.
(** ** Overwriting in place *)

Lemma update_first_split p f rows old :
  find p rows = Some old ->
  exists before after,
    rows = (before ++ old :: after)%list
    /\ existsb p before = false
    /\ update_first p f rows = (before ++ f old :: after)%list.
Proof.
  induction rows as [|x rows IH]; cbn; [discriminate|].
  destruct (p x) eqn:E.
  - intros [= ->]. exists [], rows. repeat split.
  - intros H. destruct (IH H) as (before & after & -> & Hb & Hu).
    exists (x :: before), after. cbn. rewrite E, Hb, Hu. repeat split.
Qed.

Lemma update_first_length p f rows :
  List.length (update_first p f rows) = List.length rows.
Proof.
  induction rows as [|x rows IH]; cbn; [reflexivity|].
  destruct (p x); cbn; [reflexivity | now rewrite IH].
Qed.

Lemma existsb_update_first p q f rows :
  (forall row, q (f row) = q row) ->
  existsb q (update_first p f rows) = existsb q rows.
Proof.
  intros H. induction rows as [|x rows IH]; cbn; [reflexivity|].
  destruct (p x); cbn; [now rewrite H | now rewrite IH].
Qed.

Lemma unique_update_first s y a b c now rows :
  unique_station_year rows ->
  unique_station_year (update_first (stats_key s y) (overwrite a b c now) rows).
Proof.
  induction rows as [|x rows IH]; cbn; [auto|].
  intros [Hx Hu]. destruct (stats_key s y x); cbn.
  - split; assumption.
  - split; [|now apply IH]. rewrite existsb_update_first; [exact Hx|].
    intros row. apply stats_key_overwrite.
Qed.

Lemma stats_key_sym row row' :
  stats_key (WeatherStats.station_id row) (WeatherStats.year row) row'
  = stats_key (WeatherStats.station_id row') (WeatherStats.year row') row.
Proof.
  unfold stats_key. now rewrite String.eqb_sym, Z.eqb_sym.
Qed.

Lemma unique_snoc_stats rows row :
  unique_station_year rows ->
  existsb (stats_key (WeatherStats.station_id row) (WeatherStats.year row)) rows = false ->
  unique_station_year (rows ++ [row]).
Proof.
  induction rows as [|x rows IH]; cbn; intros H Hk; [auto|].
  destruct H as [Hx Hu]. apply orb_false_elim in Hk. destruct Hk as [Hrx Hk].
  split; [|now apply IH].
  rewrite existsb_app, Hx. cbn. now rewrite stats_key_sym, Hrx.
Qed.

Lemma unique_upserted s y db :
  unique_station_year (Session.weather_stats db) ->
  unique_station_year (Session.weather_stats (upserted s y db)).
Proof.
  intros H. unfold upserted.
  destruct (first_stat db s y) as [row|] eqn:E; cbn [Session.weather_stats].
  - now apply unique_update_first.
  - apply unique_snoc_stats; [exact H|]. cbn. now apply find_none_existsb.
Qed.

Lemma map_update_first_same {B} (g : WeatherStats.t -> B) p f rows old :
  find p rows = Some old -> g (f old) = g old ->
  map g (update_first p f rows) = map g rows.
Proof.
  intros H Hg. destruct (update_first_split p f rows old H)
    as (before & after & -> & _ & ->).
  rewrite !map_app. cbn. now rewrite Hg.
Qed.

(** Writing again the summary of a group that carries its values changes
    the last-updated timestamp only. *)
Lemma upserted_again s y db :
  summarised db (s, y) ->
  map without_updated_at (Session.weather_stats (upserted s y db))
  = map without_updated_at (Session.weather_stats db).
Proof.
  intros (row & Hf & Ha & Hb & Hc). cbn [fst snd] in *.
  unfold upserted. rewrite Hf. cbn [Session.weather_stats].
  apply (map_update_first_same _ _ _ _ row); [exact Hf|].
  unfold without_updated_at, overwrite. cbn. now rewrite Ha, Hb, Hc.
Qed.

(** ** All summaries *)

Lemma calculate_each_spec keys : forall w,
  calculate_each keys w
  = (Ok tt,
     Calc.Make
       (Calc.MakeStats (Calc.stations_processed (Calc.stats w))
          (Calc.years_processed (Calc.stats w))
          (Calc.stats_calculated (Calc.stats w) + List.length keys)
          (Calc.errors (Calc.stats w)))
       (upserted_all keys (Calc.session w))).
Proof.
  induction keys as [|[s y] keys IH]; intros w; cbn [calculate_each].
  - unfold ret. destruct w as [[sp yp sc er] db]. cbn. now rewrite Nat.add_0_r.
  - unfold bind at 1, try_except, bind at 1.
    rewrite calculate_station_year_spec. cbn [add_stats_calculated modify].
    rewrite IH. cbn. do 3 f_equal. lia.
Qed.

Lemma weather_data_upserted_all keys : forall db,
  Session.weather_data (upserted_all keys db) = Session.weather_data db.
Proof.
  induction keys as [|k keys IH]; intros db; cbn; [reflexivity|].
  unfold upserted_all in IH. now rewrite IH, weather_data_upserted.
Qed.

Lemma summarised_kept_all keys : forall db key,
  summarised db key -> summarised (upserted_all keys db) key.
Proof.
  induction keys as [|k keys IH]; intros db key H; cbn; [exact H|].
  apply IH. now apply summarised_kept.
Qed.

Lemma summarised_after_all keys : forall db key,
  In key keys -> summarised (upserted_all keys db) key.
Proof.
  induction keys as [|k keys IH]; intros db key Hin; [contradiction|].
  cbn. destruct Hin as [-> | Hin]; [|now apply IH].
  apply summarised_kept_all. destruct key as [s y]. apply summarised_upserted.
Qed.

Lemma upserted_all_again keys : forall db,
  (forall key, In key keys -> summarised db key) ->
  map without_updated_at (Session.weather_stats (upserted_all keys db))
  = map without_updated_at (Session.weather_stats db).
Proof.
  induction keys as [|[s y] keys IH]; intros db H; cbn; [reflexivity|].
  unfold upserted_all in IH. rewrite IH.
  - apply upserted_again. apply H. now left.
  - intros key Hin. apply summarised_kept. apply H. now right.
Qed.

Lemma unique_upserted_all keys : forall db,
  unique_station_year (Session.weather_stats db) ->
  unique_station_year (Session.weather_stats (upserted_all keys db)).
Proof.
  induction keys as [|[s y] keys IH]; intros db H; cbn; [exact H|].
  apply IH. now apply unique_upserted.
Qed.

Lemma calculate_all_stats_session w :
  fst (calculate_all_stats w)
  = Ok (Calc.stats (snd (calculate_all_stats w)))
  /\ Calc.session (snd (calculate_all_stats w))
     = upserted_all (distinct_station_years (Calc.session w)) (Calc.session w).
Proof.
  unfold calculate_all_stats, bind. rewrite calculate_each_spec. cbn. now split.
Qed.

Lemma distinct_station_years_upserted_all keys db :
  distinct_station_years (upserted_all keys db) = distinct_station_years db.
Proof. unfold distinct_station_years. now rewrite weather_data_upserted_all. Qed.
(** ** The yearly statistics *)

Lemma present_all_missing values :
  Forall (fun v => v = MISSING) values -> present values = [].
Proof.
  induction 1 as [|v values Hv _ IH]; cbn; [reflexivity|].
  subst v. cbn. exact IH.
Qed.

(** C2. For every (station, year) group the summary written by the
    aggregator carries, as average maximum temperature, the mean of the
    maximum temperatures of the group that are not -9999, divided by 10;
    the same for the minimum temperatures; and as total precipitation the
    sum of the precipitations that are not -9999, divided by 100, all in
    binary64 arithmetic. A field whose values in the group are all -9999
    is null. The whole run leaves such a summary for every group of the
    daily table, and the values 100, 150, -9999 average to 12.5. *)
Theorem summary_follows_the_formula (station_id : string) (year : Z) (w : Calc.t) :
  let group := station_year_query (Calc.session w) station_id year in
  let max_temps := map WeatherData.max_temp group in
  let min_temps := map WeatherData.min_temp group in
  let precipitations := map WeatherData.precipitation group in
  let w' := snd (_calculate_station_year_stats station_id year w) in
  fst (_calculate_station_year_stats station_id year w) = Ok tt
  /\ (exists row,
        first_stat (Calc.session w') station_id year = Some row
        /\ WeatherStats.avg_max_temp row = mean_of_tenths max_temps
        /\ WeatherStats.avg_min_temp row = mean_of_tenths min_temps
        /\ WeatherStats.total_precipitation row = total_of_hundredths precipitations)
  /\ (forall values : list Z,
        present values <> [] ->
        mean_of_tenths values
        = Some (float_of_int (sum (present values))
                / float_of_int (Z.of_nat (List.length (present values))) / 10)%float
        /\ total_of_hundredths values
           = Some (float_of_int (sum (present values)) / 100)%float)
  /\ (forall values : list Z,
        Forall (fun v => v = MISSING) values ->
        mean_of_tenths values = None /\ total_of_hundredths values = None)
  /\ (forall key,
        In key (distinct_station_years (Calc.session w)) ->
        summarised (Calc.session (snd (calculate_all_stats w))) key)
  /\ mean_of_tenths [100; 150; -9999] = Some 12.5%float.
Proof.
  cbv zeta. rewrite calculate_station_year_spec. cbn [fst snd Calc.session].
  split; [reflexivity|]. split; [|split; [|split; [|split]]].
  - destruct (summarised_upserted station_id year (Calc.session w))
      as (row & Hf & Ha & Hb & Hc).
    cbn [fst snd] in *. rewrite station_year_query_upserted in Ha, Hb, Hc.
    exists row. repeat split; assumption.
  - intros values Hv. unfold mean_of_tenths, total_of_hundredths, true_div.
    destruct (present values); [contradiction | now split].
  - intros values Hv. unfold mean_of_tenths, total_of_hundredths.
    now rewrite (present_all_missing values Hv).
  - intros key Hin. destruct (calculate_all_stats_session w) as [_ ->].
    now apply summarised_after_all.
  - reflexivity.
Qed.

(** C2 on the sample of the test suite (12.5, -5 and 0.75) and on a year
    without any measurement (three nulls). *)
Lemma sample_summary :
  (exists row,
     first_stat
       (Calc.session
          (snd (_calculate_station_year_stats "USC00110072" 2023
                  (Calc.__init__ sample_db))))
       "USC00110072" 2023 = Some row
     /\ WeatherStats.avg_max_temp row = Some 12.5%float
     /\ WeatherStats.avg_min_temp row = Some (-5)%float
     /\ WeatherStats.total_precipitation row = Some 0.75%float)
  /\ (exists row,
        first_stat
          (Calc.session
             (snd (_calculate_station_year_stats "USC00110072" 1999
                     (Calc.__init__ blank_year_db))))
          "USC00110072" 1999 = Some row
        /\ WeatherStats.avg_max_temp row = None
        /\ WeatherStats.avg_min_temp row = None
        /\ WeatherStats.total_precipitation row = None).
Proof.
  split.
  - destruct (summary_follows_the_formula "USC00110072" 2023 (Calc.__init__ sample_db))
      as (_ & (row & Hf & Ha & Hb & Hc) & _).
    exists row. split; [exact Hf|]. rewrite Ha, Hb, Hc. repeat split.
  - destruct (summary_follows_the_formula "USC00110072" 1999
                (Calc.__init__ blank_year_db))
      as (_ & (row & Hf & Ha & Hb & Hc) & _ & Hnull & _).
    exists row. split; [exact Hf|]. rewrite Ha, Hb, Hc.
    destruct (Hnull [-9999] (Forall_cons _ eq_refl (Forall_nil _))) as [Hm Ht].
    repeat split.
Defined.

(** C9. When a summary row exists for the (station, year) pair, the
    aggregator overwrites that row, the first of its pair, in place: the
    three derived values and the last-updated timestamp are set, the
    station, the year and the creation timestamp stay as they were, every
    other row is untouched, the table has as many rows as before and the
    daily table is unchanged. *)
Theorem upsert_overwrites_in_place (station_id : string) (year : Z)
    (w : Calc.t) (old : WeatherStats.t) :
  first_stat (Calc.session w) station_id year = Some old ->
  let db := Calc.session w in
  let db' := Calc.session (snd (_calculate_station_year_stats station_id year w)) in
  let group := station_year_query db station_id year in
  exists before after new,
    Session.weather_stats db = (before ++ old :: after)%list
    /\ existsb (stats_key station_id year) before = false
    /\ Session.weather_stats db' = (before ++ new :: after)%list
    /\ WeatherStats.station_id new = WeatherStats.station_id old
    /\ WeatherStats.year new = WeatherStats.year old
    /\ WeatherStats.created_at new = WeatherStats.created_at old
    /\ WeatherStats.updated_at new = Some (Session.clock db)
    /\ WeatherStats.avg_max_temp new
       = mean_of_tenths (map WeatherData.max_temp group)
    /\ WeatherStats.avg_min_temp new
       = mean_of_tenths (map WeatherData.min_temp group)
    /\ WeatherStats.total_precipitation new
       = total_of_hundredths (map WeatherData.precipitation group)
    /\ List.length (Session.weather_stats db') = List.length (Session.weather_stats db)
    /\ Session.weather_data db' = Session.weather_data db.
Proof.
  intros Hf. cbv zeta. rewrite calculate_station_year_spec.
  cbn [snd Calc.session]. unfold upserted. rewrite Hf.
  cbn [Session.weather_stats Session.weather_data].
  unfold first_stat in Hf.
  destruct (update_first_split (stats_key station_id year)
    (overwrite
       (mean_of_tenths (map WeatherData.max_temp
          (station_year_query (Calc.session w) station_id year)))
       (mean_of_tenths (map WeatherData.min_temp
          (station_year_query (Calc.session w) station_id year)))
       (total_of_hundredths (map WeatherData.precipitation
          (station_year_query (Calc.session w) station_id year)))
       (Session.clock (Calc.session w)))
    _ old Hf) as (before & after & Hr & Hb & Hu).
  exists before, after. eexists. rewrite Hu, Hr.
  repeat split; try reflexivity; try assumption.
  rewrite !length_app. reflexivity.
Qed.

(** C9 on the sample, summarised once and then again: still one row, and
    the daily table as it was. *)
Lemma second_summary_overwrites :
  let w1 := snd (run_stats_calculation sample_db) in
  let w2 := snd (_calculate_station_year_stats "USC00110072" 2023 w1) in
  List.length (Session.weather_stats (Calc.session w2)) = 1%nat
  /\ Session.weather_data (Calc.session w2) = Session.weather_data sample_db.
Proof.
  cbv zeta.
  destruct (upsert_overwrites_in_place "USC00110072" 2023
              (snd (run_stats_calculation sample_db))
              (WeatherStats.Make "USC00110072" 2023 (Some 12.5%float)
                 (Some (-5)%float) (Some 0.75%float) (Some 3%nat) (Some 4%nat))
              eq_refl)
    as (before & after & new & _ & _ & _ & _ & _ & _ & _ & _ & _ & _ & Hl & Hd).
  split; [rewrite Hl; reflexivity | rewrite Hd; reflexivity].
Defined.

(** C6. A second run of the aggregator over the same daily records
    leaves every summary row with the values, the station, the year and
    the creation timestamp the first run left, in the same order and with
    no row added: only the last-updated timestamps move. Neither run
    changes the daily table, and the (station, year) pairs of the summary
    table stay distinct. *)
Theorem second_aggregation_changes_nothing (w : Calc.t) (stats : Calc.Stats) :
  let w1 := snd (calculate_all_stats w) in
  let w2 := snd (calculate_all_stats (Calc.Make stats (Calc.session w1))) in
  fst (calculate_all_stats w) = Ok (Calc.stats w1)
  /\ fst (calculate_all_stats (Calc.Make stats (Calc.session w1))) = Ok (Calc.stats w2)
  /\ map without_updated_at (Session.weather_stats (Calc.session w2))
     = map without_updated_at (Session.weather_stats (Calc.session w1))
  /\ List.length (Session.weather_stats (Calc.session w2))
     = List.length (Session.weather_stats (Calc.session w1))
  /\ Session.weather_data (Calc.session w1) = Session.weather_data (Calc.session w)
  /\ Session.weather_data (Calc.session w2) = Session.weather_data (Calc.session w)
  /\ (unique_station_year (Session.weather_stats (Calc.session w)) ->
      unique_station_year (Session.weather_stats (Calc.session w1))
      /\ unique_station_year (Session.weather_stats (Calc.session w2))).
Proof.
  cbv zeta.
  destruct (calculate_all_stats_session w) as [Ho1 Hs1].
  destruct (calculate_all_stats_session
              (Calc.Make stats (Calc.session (snd (calculate_all_stats w)))))
    as [Ho2 Hs2].
  cbn [Calc.session] in Hs2.
  assert (Hagain :
    map without_updated_at
      (Session.weather_stats
         (Calc.session
            (snd (calculate_all_stats
                    (Calc.Make stats (Calc.session (snd (calculate_all_stats w))))))))
    = map without_updated_at
        (Session.weather_stats (Calc.session (snd (calculate_all_stats w))))).
  { rewrite Hs2. apply upserted_all_again. intros key Hin.
    rewrite Hs1 in *. rewrite distinct_station_years_upserted_all in Hin.
    now apply summarised_after_all. }
  split; [exact Ho1|]. split; [exact Ho2|]. split; [exact Hagain|].
  split; [|split; [|split]].
  - apply (f_equal (@List.length _)) in Hagain. now rewrite !length_map in Hagain.
  - rewrite Hs1. apply weather_data_upserted_all.
  - rewrite Hs2, weather_data_upserted_all, Hs1. apply weather_data_upserted_all.
  - intros Hu. split.
    + rewrite Hs1. now apply unique_upserted_all.
    + rewrite Hs2. apply unique_upserted_all. rewrite Hs1.
      now apply unique_upserted_all.
Qed.

(** C6 on the sample: the two runs differ in the last-updated timestamp
    of the one summary row only. *)
Lemma sample_summarised_twice :
  let db1 := Calc.session (snd (run_stats_calculation sample_db)) in
  let db2 := Calc.session (snd (run_stats_calculation db1)) in
  map without_updated_at (Session.weather_stats db2)
  = map without_updated_at (Session.weather_stats db1)
  /\ map WeatherStats.updated_at (Session.weather_stats db1) = [Some 4%nat]
  /\ map WeatherStats.updated_at (Session.weather_stats db2) = [Some 5%nat]
  /\ unique_station_year (Session.weather_stats db2).
Proof.
  destruct (second_aggregation_changes_nothing (Calc.__init__ sample_db)
              (Calc.MakeStats 0 0 0 0)) as (_ & _ & H & _ & _ & _ & Hu).
  cbv zeta in *. split; [exact H|].
  split; [vm_compute; reflexivity|]. split; [vm_compute; reflexivity|].
  apply Hu. exact I.
Defined.

(** * Further properties *)

(** ** A run, whatever the storage refuses *)
































(** ** What the parser returns *)




(** ** Blank lines *)




(** ** The groups of the summary table *)









(** ** The counters of the aggregator *)





(** ** One station *)




(** ** The order of the daily rows *)








(** ** The derived properties of a daily record *)





(** ** The dates of a query *)












(** ** The port of the server *)



